(** * zerver/lib/topic.py: topic names, topic history and topic moves

    A shallow embedding of the topic helpers of the message store and
    the properties stated about them.

    Conventions of the embedding.
    - A Python [str] is a [string]: the UTF-8 bytes of the text.  UTF-8
      encoding preserves concatenation, emptiness and the prefix order,
      which are the only string operations of this module besides
      [str.lower] (and SQL's [UPPER]), taken as parameters.
    - A Python [int] is a [Z].
    - A raised exception is a [Raise] result.
    - A [dict] whose iteration order matters is an association list in
      insertion order; a [dict] that is only looked up is a [gmap].
    - A database table is the list of its rows, a lazy [QuerySet] the
      predicate it filters with, evaluated on the table when it is used. *)

From Stdlib Require Import ZArith List Bool Ascii Lia Permutation Sorted DecimalString.
From stdpp Require Import base list strings gmap.

Open Scope Z_scope.

(** ** Python values and exceptions *)

Inductive exn : Type :=
| AssertionError
| KeyError (key : string)
| AttributeError
| JSONDecodeError
| DataError
| IntegrityError
| TypeError.

Inductive result (A : Type) : Type :=
| Ok (a : A)
| Raise (e : exn).
Arguments Ok {A} a.
Arguments Raise {A} e.

Definition bind {A B : Type} (r : result A) (k : A -> result B) : result B :=
  match r with
  | Ok a => k a
  | Raise e => Raise e
  end.

Notation "'let*' x ':=' r 'in' k" := (bind r (fun x => k))
  (at level 10, x name, r at level 100, k at level 200).

(** [assert_is_not_none] of zerver/lib/utils.py. *)
Definition assert_is_not_none {A : Type} (value : option A) : result A :=
  match value with
  | Some a => Ok a
  | None => Raise AssertionError
  end.

(** ** Strings *)

Module PyStr.

(** [s.startswith(p)] *)
Fixpoint startswith (s p : string) {struct p} : bool :=
  match p, s with
  | EmptyString, _ => true
  | String c p', String d s' => if Ascii.eqb c d then startswith s' p' else false
  | String _ _, EmptyString => false
  end.

(** [s[n:]] *)
Fixpoint drop (n : nat) (s : string) : string :=
  match n, s with
  | O, _ => s
  | S n', String _ s' => drop n' s'
  | S _, EmptyString => EmptyString
  end.

(** [s.removeprefix(p)] *)
Definition removeprefix (s p : string) : string :=
  if startswith s p then drop (String.length p) s else s.

(** [str.lower] restricted to ASCII text, where it maps [A-Z] to [a-z] and
    keeps every other character: the instance the examples run with. *)
Definition ascii_lower_char (c : Ascii.ascii) : Ascii.ascii :=
  let n := Ascii.nat_of_ascii c in
  if (Nat.leb 65 n && Nat.leb n 90)%bool then Ascii.ascii_of_nat (n + 32) else c.

Fixpoint ascii_lower (s : string) : string :=
  match s with
  | EmptyString => EmptyString
  | String c s' => String (ascii_lower_char c) (ascii_lower s')
  end.

(** SQL [UPPER] restricted to ASCII text. *)
Definition ascii_upper_char (c : Ascii.ascii) : Ascii.ascii :=
  let n := Ascii.nat_of_ascii c in
  if (Nat.leb 97 n && Nat.leb n 122)%bool then Ascii.ascii_of_nat (n - 32) else c.

Fixpoint ascii_upper (s : string) : string :=
  match s with
  | EmptyString => EmptyString
  | String c s' => String (ascii_upper_char c) (ascii_upper s')
  end.

End PyStr.

(** ** Lists and dicts *)

Module Py.

(** [sorted(l, key=key)]: Python's sort is stable, and a stable sort is
    determined by the keys, so insertion from the right models it. *)
Fixpoint insort {A : Type} (key : A -> Z) (x : A) (l : list A) : list A :=
  match l with
  | [] => [x]
  | y :: l' => if key x <=? key y then x :: y :: l' else y :: insort key x l'
  end.

Definition sorted {A : Type} (key : A -> Z) (l : list A) : list A :=
  foldr (insort key) [] l.

(** A [dict] in insertion order.  [d[k] = v] replaces the value of a key
    that is present, in place, and appends a new key at the end. *)
Definition dict (V : Type) : Type := list (string * V).

Fixpoint setitem {V : Type} (d : dict V) (k : string) (v : V) : dict V :=
  match d with
  | [] => [(k, v)]
  | (k', v') :: d' =>
      if String.eqb k k' then (k', v) :: d' else (k', v') :: setitem d' k v
  end.

Fixpoint get {V : Type} (d : dict V) (k : string) : option V :=
  match d with
  | [] => None
  | (k', v') :: d' => if String.eqb k k' then Some v' else get d' k
  end.

Definition values {V : Type} (d : dict V) : list V := map snd d.

(** [k in d] and [d[k]] on a dict that is only looked up. *)
Definition contains {V : Type} (d : gmap string V) (k : string) : bool :=
  bool_decide (is_Some (d !! k)).

Definition getitem {V : Type} (d : gmap string V) (k : string) : result V :=
  match d !! k with
  | Some v => Ok v
  | None => Raise (KeyError k)
  end.

End Py.

(** ** JSON values *)

#[local] Set Warnings "-register-all".

Inductive json : Type :=
| JNull
| JBool (b : bool)
| JNum (n : Z)
| JStr (s : string)
| JArr (items : list json)
| JObj (members : list (string * json)).

(** An edit-history event is a JSON object. *)
Definition EditHistoryEvent : Type := json.

(** [list.insert(0, x)] on a decoded JSON value: only a list has [insert]. *)
Definition insert0 (v : json) (x : json) : result json :=
  match v with
  | JArr items => Ok (JArr (x :: items))
  | _ => Raise AttributeError
  end.

(** PostgreSQL's [jsonb || jsonb]: two arrays are concatenated, two objects
    merged with the right one winning, and in every other case a value that
    is not an array is first wrapped into a one-element array. *)
Definition jsonb_concat (a b : json) : json :=
  match a, b with
  | JArr x, JArr y => JArr (x ++ y)
  | JObj x, JObj y => JObj (fold_left (fun d kv => Py.setitem d (fst kv) (snd kv)) y x)
  | JArr x, _ => JArr (x ++ [b])
  | _, JArr y => JArr (a :: y)
  | _, _ => JArr [a; b]
  end.

(** ** A codec for JSON text

    Plain JSON text: integers, strings without escapes, arrays and
    objects.  [print] takes the separators, so that it gives both the
    compact text of [orjson.dumps] and the spaced text of [jsonb::text].
    The examples run with this codec; the functions of the module take
    theirs as parameters. *)

Module JsonText.

Definition dquote : Ascii.ascii := Ascii.ascii_of_nat 34.

Definition quoted (s : string) : string := String dquote (s +:+ String dquote "").

Fixpoint print (sep colon : string) (v : json) : string :=
  match v with
  | JNull => "null"
  | JBool b => if b then "true" else "false"
  | JNum n => NilZero.string_of_int (Z.to_int n)
  | JStr s => quoted s
  | JArr items => "[" +:+ String.concat sep (map (print sep colon) items) +:+ "]"
  | JObj members =>
      "{" +:+ String.concat sep
                (map (fun kv => let '(k, x) := kv in quoted k +:+ colon +:+ print sep colon x)
                   members) +:+ "}"
  end.

Fixpoint skip_ws (s : string) : string :=
  match s with
  | String c s' => if Ascii.eqb c " "%char then skip_ws s' else s
  | EmptyString => s
  end.

Fixpoint read_until_quote (s : string) : option (string * string) :=
  match s with
  | EmptyString => None
  | String c s' =>
      if Ascii.eqb c dquote then Some ("", s')
      else match read_until_quote s' with
           | Some (a, rest) => Some (String c a, rest)
           | None => None
           end
  end.

Definition is_digit (c : Ascii.ascii) : bool :=
  let n := Ascii.nat_of_ascii c in (Nat.leb 48 n && Nat.leb n 57)%bool.

Fixpoint read_digits (acc : Z) (s : string) : Z * string :=
  match s with
  | String c s' =>
      if is_digit c
      then read_digits (acc * 10 + Z.of_nat (Ascii.nat_of_ascii c - 48)) s'
      else (acc, s)
  | EmptyString => (acc, s)
  end.

(** The items of an array after its first bracket, up to the closing one. *)
Fixpoint parse_items (value : string -> option (json * string)) (fuel : nat)
    (s : string) : option (list json * string) :=
  match fuel with
  | O => None
  | S fuel' =>
      match value s with
      | None => None
      | Some (v, rest) =>
          match skip_ws rest with
          | String c rest' =>
              if Ascii.eqb c ","%char then
                match parse_items value fuel' rest' with
                | Some (vs, r) => Some (v :: vs, r)
                | None => None
                end
              else if Ascii.eqb c "]"%char then Some ([v], rest')
              else None
          | EmptyString => None
          end
      end
  end.

(** The members of an object after its first brace, up to the closing one. *)
Fixpoint parse_members (value : string -> option (json * string)) (fuel : nat)
    (s : string) : option (list (string * json) * string) :=
  match fuel with
  | O => None
  | S fuel' =>
      match skip_ws s with
      | String q s1 =>
          if Ascii.eqb q dquote then
            match read_until_quote s1 with
            | None => None
            | Some (k, s2) =>
                match skip_ws s2 with
                | String c s3 =>
                    if Ascii.eqb c ":"%char then
                      match value s3 with
                      | None => None
                      | Some (v, rest) =>
                          match skip_ws rest with
                          | String d rest' =>
                              if Ascii.eqb d ","%char then
                                match parse_members value fuel' rest' with
                                | Some (kvs, r) => Some ((k, v) :: kvs, r)
                                | None => None
                                end
                              else if Ascii.eqb d "}"%char then Some ([(k, v)], rest')
                              else None
                          | EmptyString => None
                          end
                      end
                    else None
                | EmptyString => None
                end
            end
          else None
      | EmptyString => None
      end
  end.

Fixpoint parse_value (fuel : nat) (s : string) : option (json * string) :=
  match fuel with
  | O => None
  | S fuel' =>
      match skip_ws s with
      | EmptyString => None
      | String c s' =>
          if Ascii.eqb c "["%char then
            match skip_ws s' with
            | String d r =>
                if Ascii.eqb d "]"%char then Some (JArr [], r)
                else match parse_items (parse_value fuel') fuel' s' with
                     | Some (vs, r') => Some (JArr vs, r')
                     | None => None
                     end
            | EmptyString => None
            end
          else if Ascii.eqb c "{"%char then
            match skip_ws s' with
            | String d r =>
                if Ascii.eqb d "}"%char then Some (JObj [], r)
                else match parse_members (parse_value fuel') fuel' s' with
                     | Some (kvs, r') => Some (JObj kvs, r')
                     | None => None
                     end
            | EmptyString => None
            end
          else if Ascii.eqb c dquote then
            match read_until_quote s' with
            | Some (a, r) => Some (JStr a, r)
            | None => None
            end
          else if Ascii.eqb c "-"%char then
            match s' with
            | String d _ =>
                if is_digit d
                then let '(n, r) := read_digits 0 s' in Some (JNum (- n), r)
                else None
            | EmptyString => None
            end
          else if is_digit c then
            let '(n, r) := read_digits 0 (String c s') in Some (JNum n, r)
          else if PyStr.startswith (String c s') "null" then Some (JNull, PyStr.drop 4 (String c s'))
          else if PyStr.startswith (String c s') "true" then Some (JBool true, PyStr.drop 4 (String c s'))
          else if PyStr.startswith (String c s') "false" then Some (JBool false, PyStr.drop 5 (String c s'))
          else None
      end
  end.

Definition decode (s : string) : option json :=
  match parse_value (S (String.length s)) s with
  | Some (v, rest) =>
      match skip_ws rest with
      | EmptyString => Some v
      | String _ _ => None
      end
  | None => None
  end.

Definition loads (s : string) : result json :=
  match decode s with
  | Some v => Ok v
  | None => Raise JSONDecodeError
  end.

Definition dumps (v : json) : string := print "," ":" v.

(** The values [orjson.dumps] takes: it raises for an integer that does
    not fit 64 bits, from the least signed one to the greatest unsigned. *)
Fixpoint encodes (v : json) : bool :=
  match v with
  | JNum n => (-9223372036854775807 <=? n) && (n <=? 18446744073709551615)
  | JArr items => forallb encodes items
  | JObj members => forallb (fun kv => encodes (snd kv)) members
  | _ => true
  end.

Definition jsonb_in (s : string) : option json := decode s.

Definition jsonb_out (v : json) : string := print ", " ": " v.

End JsonText.

(** ** The schema *)

Module Message.
Record t : Type := mk {
  id : Z;
  realm_id : Z;
  recipient_id : Z;
  subject : string;
  is_channel_message : bool;
  sender_id : Z;
  last_edit_time : option Z;
  edit_history : option string
}.
End Message.

Module UserMessage.
Record t : Type := mk {
  id : Z;
  user_profile_id : Z;
  message_id : Z
}.
End UserMessage.

Module UserProfile.
Record t : Type := mk {
  id : Z;
  realm_id : Z
}.
End UserProfile.

Module Stream.
Record t : Type := mk {
  realm_id : Z;
  recipient_id : option Z
}.
End Stream.

Module Reaction.
Record t : Type := mk {
  id : Z;
  user_profile_id : Z;
  message_id : Z
}.
End Reaction.

Record Database : Type := {
  zerver_message : list Message.t;
  zerver_usermessage : list UserMessage.t
}.

Inductive PropagateMode : Type := change_one | change_later | change_all.

Definition PropagateMode_eqb (a b : PropagateMode) : bool :=
  match a, b with
  | change_one, change_one | change_later, change_later | change_all, change_all => true
  | _, _ => false
  end.

(** The fields of [StreamMessageEditRequest] (zerver/lib/types.py) that the
    topic module reads. *)
Record StreamMessageEditRequest : Type := {
  orig_stream : Stream.t;
  target_stream : Stream.t;
  orig_topic_name : string;
  target_topic_name : string;
  propagate_mode : PropagateMode;
  is_stream_edited : bool;
  is_topic_edited : bool
}.

Record TopicHistoryEntry : Type := { name : string; max_id : Z }.

(** ** Query sets *)

(** A lazy [QuerySet]: the condition it selects rows with. *)
Definition QuerySet (A : Type) : Type := A -> bool.

Definition qs_filter {A : Type} (q : QuerySet A) (cond : A -> bool) : QuerySet A :=
  fun row => q row && cond row.

Definition qs_exclude {A : Type} (q : QuerySet A) (cond : A -> bool) : QuerySet A :=
  fun row => q row && negb (cond row).

(** Evaluating a query set on the table. *)
Definition qs_rows {A : Type} (q : QuerySet A) (table : list A) : list A :=
  List.filter q table.

(** [.last()] of a query set without ordering: the row with the greatest
    primary key, [None] when there is no row. *)
Definition qs_last {A : Type} (pk : A -> Z) (rows : list A) : option A :=
  fold_left
    (fun best row =>
       match best with
       | None => Some row
       | Some b => if pk b <? pk row then Some row else Some b
       end)
    rows None.

(** [.exists()] *)
Definition qs_exists {A : Type} (rows : list A) : bool :=
  match rows with [] => false | _ :: _ => true end.

(** [id__in=ids] *)
Definition id_in (ids : list Z) (m : Message.t) : bool :=
  existsb (Z.eqb (Message.id m)) ids.

(** ** SQL expressions of an UPDATE *)

Inductive sql_value : Type :=
| SqlNull
| SqlText (s : string)
| SqlJsonb (j : json).

Inductive Expr : Type :=
| Value (s : string)
| F (column : string)
| Func_COALESCE (a b : Expr)
| Func_join (a b : Expr)        (* Func(a, b, function="", arg_joiner=" || ") *)
| Cast_JSONField (e : Expr)
| Cast_TextField (e : Expr).

(** ** Data the properties are run on *)

Module Example.

Definition event : EditHistoryEvent :=
  JObj [("user_id", JNum 7); ("prev_topic", JStr "bug"); ("topic", JStr "crash");
        ("timestamp", JNum 1700000000)].

Definition earlier_event : EditHistoryEvent :=
  JObj [("user_id", JNum 3); ("prev_content", JStr "helo");
        ("timestamp", JNum 1600000000)].

(** A channel message of realm 1 in the conversation with recipient 10. *)
Definition message (id : Z) (subject : string) (edit_history : option string)
  : Message.t :=
  Message.mk id 1 10 subject true 5 None edit_history.

Definition m1 : Message.t := message 1 "bug" None.
Definition m2 : Message.t :=
  message 2 "Bug" (Some (JsonText.dumps (JArr [earlier_event]))).
Definition m3 : Message.t := message 3 "BUG" None.
Definition m4 : Message.t := message 4 "other" None.

Definition table : list Message.t := [m1; m2; m3; m4].

(** [m1] as its editor has saved it, under the new topic. *)
Definition m1_saved : Message.t :=
  Message.mk 1 1 10 "crash" true 5 (Some 1700000000)
    (Some (JsonText.dumps (JArr [event]))).

Definition table_saved : list Message.t := [m1_saved; m2; m3; m4].

Definition stream_a : Stream.t := Stream.mk 1 (Some 10).
Definition stream_b : Stream.t := Stream.mk 1 (Some 20).

Definition user : UserProfile.t := UserProfile.mk 7 1.

(** A move of topic [bug] of [stream_a] to topic [crash], of [stream_b]
    when the stream is edited too. *)
Definition request (mode : PropagateMode) (stream_edited : bool)
  : StreamMessageEditRequest :=
  {| orig_stream := stream_a;
     target_stream := if stream_edited then stream_b else stream_a;
     orig_topic_name := "bug";
     target_topic_name := "crash";
     propagate_mode := mode;
     is_stream_edited := stream_edited;
     is_topic_edited := true |}.

(** Two access checks: a user who may read every message, and one who may
    not read message [n]. *)
Definition allow_all (_ : UserProfile.t) (q : QuerySet Message.t) (_ : Stream.t)
  : QuerySet Message.t := q.

Definition deny_message (n : Z) (_ : UserProfile.t) (q : QuerySet Message.t)
    (_ : Stream.t) : QuerySet Message.t :=
  qs_filter q (fun m => negb (Message.id m =? n)).

(** Delivery records: user 7 has received the messages 1, 3 and 4, user 8
    the message 2. *)
Definition usermessages : list UserMessage.t :=
  [UserMessage.mk 100 7 1; UserMessage.mk 101 8 2; UserMessage.mk 102 7 3;
   UserMessage.mk 103 7 4].

Definition database : Database :=
  {| zerver_message := table; zerver_usermessage := usermessages |}.

(** User 9 has reacted to message 2, user 8 to message 4. *)
Definition reactions : list Reaction.t :=
  [Reaction.mk 200 9 2; Reaction.mk 201 8 4].

Definition userprofiles : list UserProfile.t :=
  [UserProfile.mk 5 1; UserProfile.mk 7 1; UserProfile.mk 8 1; UserProfile.mk 9 1].

(** A message whose stored history is a JSON object, not an array, and one
    whose history is not JSON text. *)
Definition m_object : Message.t :=
  message 5 "bug" (Some (JsonText.dumps earlier_event)).

Definition m_broken : Message.t := message 6 "bug" (Some "[oops").

(** An event with an integer that does not fit 64 bits. *)
Definition event_too_big : EditHistoryEvent :=
  JObj [("user_id", JNum 18446744073709551616); ("timestamp", JNum 1700000000)].

(** The translations of the fallback name the examples run with. *)
Definition gettext (language text : string) : string :=
  if String.eqb language "de" then
    (if String.eqb text "general chat" then "Allgemeiner Chat" else text)
  else text.

(** A rename of topic [bug] that changes its case only. *)
Definition recase_request : StreamMessageEditRequest :=
  {| orig_stream := stream_a;
     target_stream := stream_a;
     orig_topic_name := "bug";
     target_topic_name := "BUG";
     propagate_mode := change_all;
     is_stream_edited := false;
     is_topic_edited := true |}.


End Example.

(** ** Constants of the module *)

Definition ORIG_TOPIC : string := "orig_subject".
Definition TOPIC_NAME : string := "subject".
Definition TOPIC_LINKS : string := "topic_links".
Definition MATCH_TOPIC : string := "match_subject".
Definition EXPORT_TOPIC_NAME : string := "subject".
Definition DB_TOPIC_NAME : string := "subject".
Definition MESSAGE__TOPIC : string := "message__subject".

(** Prefix used to mark a topic as resolved: U+2714, then a space. *)
Definition RESOLVED_TOPIC_PREFIX : string := "✔ ".

(** ** The functions of zerver/lib/topic.py *)

Section Topic.

(** [str.lower] of Python and [UPPER] of the database, which
    [subject__iexact] compares with. *)
Variable lower : string -> string.
Variable UPPER : string -> string.

(** [Message.EMPTY_TOPIC_FALLBACK_NAME] (zerver/models). *)
Variable EMPTY_TOPIC_FALLBACK_NAME : string.

(** [orjson.loads], [orjson.dumps(..).decode()], and the casts
    [text::jsonb] and [jsonb::text] of the database. *)
Variable orjson_loads : string -> result json.
Variable orjson_dumps : json -> string.
Variable jsonb_in : string -> option json.
Variable jsonb_out : json -> string.

(** Whether [orjson.dumps] takes a value: it raises [JSONEncodeError], a
    [TypeError], for one it cannot encode, such as an integer beyond 64
    bits, and [orjson_dumps] is the text of a value it takes. *)
Variable orjson_encodes : json -> bool.

(** [bulk_access_stream_messages_query] (zerver/lib/message.py): the
    access-control check the topic move delegates to. *)
Variable bulk_access_stream_messages_query :
  UserProfile.t -> QuerySet Message.t -> Stream.t -> QuerySet Message.t.

(** [gettext] of Django under [override_language]: the translation of a
    text into a language. *)
Variable gettext : string -> string -> string.

Definition get_topic_from_message_info {V : Type} (message_info : gmap string V)
  : result V :=
  if Py.contains message_info "topic" then Py.getitem message_info "topic"
  else Py.getitem message_info "subject".

Definition iexact (column value : string) : bool :=
  String.eqb (UPPER column) (UPPER value).

Definition messages_for_topic (realm_id stream_recipient_id : Z) (topic_name : string)
  : QuerySet Message.t :=
  fun m =>
    (Message.realm_id m =? realm_id)
    && (Message.recipient_id m =? stream_recipient_id)
    && iexact (Message.subject m) topic_name
    && Message.is_channel_message m.

(** The join [message__...] of a [UserMessage] row with its message. *)
Definition via_message (db : Database) (cond : Message.t -> bool) (um : UserMessage.t)
  : bool :=
  existsb (fun m => (Message.id m =? UserMessage.message_id um) && cond m)
    (zerver_message db).

Definition user_messages_for_topic (db : Database) (user_profile : UserProfile.t)
    (recipient_id : Z) (topic_name : string) : QuerySet UserMessage.t :=
  fun um =>
    (UserMessage.user_profile_id um =? UserProfile.id user_profile)
    && via_message db
         (fun m => (Message.recipient_id m =? recipient_id)
                   && iexact (Message.subject m) topic_name
                   && Message.is_channel_message m) um.

(** The last argument is [None] when the caller leaves
    [acting_user_has_channel_content_access] out: its default is [False]. *)
Definition get_latest_message_for_user_in_topic (db : Database)
    (realm_id : Z) (user_profile : option UserProfile.t) (recipient_id : Z)
    (topic_name : string) (history_public_to_subscribers : bool)
    (acting_user_has_channel_content_access : option bool) : result (option Z) :=
  let acting_user_has_channel_content_access :=
    match acting_user_has_channel_content_access with
    | Some b => b
    | None => false
    end in
  if negb acting_user_has_channel_content_access then Raise AssertionError
  else if history_public_to_subscribers then
    Ok (option_map Message.id
          (qs_last Message.id
             (qs_rows (messages_for_topic realm_id recipient_id topic_name)
                (zerver_message db))))
  else
    match user_profile with
    | Some user_profile =>
        Ok (option_map UserMessage.message_id
              (qs_last UserMessage.id
                 (qs_rows (user_messages_for_topic db user_profile recipient_id topic_name)
                    (zerver_usermessage db))))
    | None => Ok None
    end.

Definition user_message_exists_for_topic (db : Database) (user_profile : UserProfile.t)
    (recipient_id : Z) (topic_name : string) : bool :=
  qs_exists
    (qs_rows (user_messages_for_topic db user_profile recipient_id topic_name)
       (zerver_usermessage db)).

Definition set_last_edit_time (m : Message.t) (t : Z) : Message.t :=
  Message.mk (Message.id m) (Message.realm_id m) (Message.recipient_id m)
    (Message.subject m) (Message.is_channel_message m) (Message.sender_id m)
    (Some t) (Message.edit_history m).

Definition set_edit_history (m : Message.t) (h : option string) : Message.t :=
  Message.mk (Message.id m) (Message.realm_id m) (Message.recipient_id m)
    (Message.subject m) (Message.is_channel_message m) (Message.sender_id m)
    (Message.last_edit_time m) h.

Definition set_recipient_id (m : Message.t) (r : Z) : Message.t :=
  Message.mk (Message.id m) (Message.realm_id m) r
    (Message.subject m) (Message.is_channel_message m) (Message.sender_id m)
    (Message.last_edit_time m) (Message.edit_history m).

Definition set_subject (m : Message.t) (s : string) : Message.t :=
  Message.mk (Message.id m) (Message.realm_id m) (Message.recipient_id m)
    s (Message.is_channel_message m) (Message.sender_id m)
    (Message.last_edit_time m) (Message.edit_history m).

(** The function mutates [message]: the result is the message afterwards,
    with the exception that interrupted it, if any.  [last_edit_time] is
    assigned before anything can fail; [edit_history] is assigned last,
    once the new history has been encoded. *)
Definition update_edit_history (message : Message.t) (last_edit_time : Z)
    (edit_history_event : EditHistoryEvent) : Message.t * result unit :=
  let message := set_last_edit_time message last_edit_time in
  let edit_history :=
    match Message.edit_history message with
    | Some text =>
        let* edit_history := orjson_loads text in
        insert0 edit_history edit_history_event
    | None => Ok (JArr [edit_history_event])
    end in
  match edit_history with
  | Ok edit_history =>
      if orjson_encodes edit_history
      then (set_edit_history message (Some (orjson_dumps edit_history)), Ok tt)
      else (message, Raise TypeError)
  | Raise e => (message, Raise e)
  end.

(** The value of a column of a message row, for the columns an update
    expression of this module reads. *)
Definition column_value (column : string) (row : Message.t) : result sql_value :=
  if String.eqb column "edit_history" then
    Ok (match Message.edit_history row with
        | Some text => SqlText text
        | None => SqlNull
        end)
  else if String.eqb column "subject" then Ok (SqlText (Message.subject row))
  else Raise DataError.

(** Evaluation of an expression on the row being updated. *)
Fixpoint eval (row : Message.t) (e : Expr) : result sql_value :=
  match e with
  | Value s => Ok (SqlText s)
  | F column => column_value column row
  | Func_COALESCE a b =>
      let* va := eval row a in
      match va with
      | SqlNull => eval row b
      | _ => Ok va
      end
  | Func_join a b =>
      let* va := eval row a in
      let* vb := eval row b in
      match va, vb with
      | SqlNull, _ | _, SqlNull => Ok SqlNull
      | SqlJsonb x, SqlJsonb y => Ok (SqlJsonb (jsonb_concat x y))
      | SqlText x, SqlText y => Ok (SqlText (x +:+ y))
      | _, _ => Raise DataError
      end
  | Cast_JSONField a =>
      let* va := eval row a in
      match va with
      | SqlNull => Ok SqlNull
      | SqlText text =>
          match jsonb_in text with
          | Some j => Ok (SqlJsonb j)
          | None => Raise DataError
          end
      | SqlJsonb j => Ok (SqlJsonb j)
      end
  | Cast_TextField a =>
      let* va := eval row a in
      match va with
      | SqlJsonb j => Ok (SqlText (jsonb_out j))
      | _ => Ok va
      end
  end.

(** The [update_fields] dict: its two keys that are always present and the
    two that are present only for a stream or a topic change.  The value
    under ["recipient"] is [target_stream.recipient], which may be null. *)
Record UpdateFields : Type := {
  uf_last_edit_time : Z;
  uf_edit_history : Expr;
  uf_recipient : option (option Z);
  uf_subject : option string
}.

(** One row of [UPDATE ... SET]: every expression reads the row as it was.
    [recipient] is a column without nulls. *)
Definition update_row (fields : UpdateFields) (row : Message.t) : result Message.t :=
  let* history := eval row (uf_edit_history fields) in
  let* history :=
    match history with
    | SqlNull => Ok None
    | SqlText text => Ok (Some text)
    | SqlJsonb _ => Raise DataError
    end in
  let* recipient :=
    match uf_recipient fields with
    | None => Ok (Message.recipient_id row)
    | Some (Some r) => Ok r
    | Some None => Raise IntegrityError
    end in
  let subject :=
    match uf_subject fields with
    | None => Message.subject row
    | Some s => s
    end in
  Ok (Message.mk (Message.id row) (Message.realm_id row) recipient subject
        (Message.is_channel_message row) (Message.sender_id row)
        (Some (uf_last_edit_time fields)) history).

(** [messages.update] with the fields: the rows the query set selects are
    rewritten, the others kept; a failing row aborts the statement. *)
Fixpoint qs_update (q : QuerySet Message.t) (fields : UpdateFields)
    (table : list Message.t) : result (list Message.t) :=
  match table with
  | [] => Ok []
  | row :: table' =>
      let* row' := (if q row then update_row fields row else Ok row) in
      let* rest := qs_update q fields table' in
      Ok (row' :: rest)
  end.

(** The [edit_history] entry of [update_fields]. *)
Definition edit_history_expr (edit_history_event : EditHistoryEvent) : Expr :=
  Cast_TextField
    (Func_join
       (Cast_JSONField (Value (orjson_dumps (JArr [edit_history_event]))))
       (Cast_JSONField (Func_COALESCE (F "edit_history") (Value "[]")))).

(** What [update_messages_for_topic_edit] returns: the query set
    [messages] and the closure [propagate].  [message_ids] is the local
    list the closure has captured.  [propagate] takes the table as it is
    when the closure is called and gives the table after the update with
    the rows of the query set it returns. *)
Record TopicEdit : Type := {
  messages : QuerySet Message.t;
  message_ids : list Z;
  propagate : list Message.t -> result (list Message.t * list Message.t)
}.

(** The query set after the two [propagate_mode] tests. *)
Definition propagate_mode_messages (edited_message : Message.t)
    (message_edit_request : StreamMessageEditRequest) (old_recipient_id : Z)
  : QuerySet Message.t :=
  let old_stream := orig_stream message_edit_request in
  let messages :=
    messages_for_topic (Stream.realm_id old_stream) old_recipient_id
      (orig_topic_name message_edit_request) in
  let messages :=
    if PropagateMode_eqb (propagate_mode message_edit_request) change_all
    then qs_exclude messages (fun m => Message.id m =? Message.id edited_message)
    else messages in
  let messages :=
    if PropagateMode_eqb (propagate_mode message_edit_request) change_later
    then qs_filter messages (fun m => Message.id m >? Message.id edited_message)
    else messages in
  messages.

Definition topic_edit_update_fields (message_edit_request : StreamMessageEditRequest)
    (edit_history_event : EditHistoryEvent) (last_edit_time : Z) : UpdateFields :=
  {| uf_last_edit_time := last_edit_time;
     uf_edit_history := edit_history_expr edit_history_event;
     uf_recipient :=
       if is_stream_edited message_edit_request
       then Some (Stream.recipient_id (target_stream message_edit_request))
       else None;
     uf_subject :=
       if is_topic_edited message_edit_request
       then Some (target_topic_name message_edit_request)
       else None |}.

(** [table] is the message table when the function is called: the ids of
    the query set are read from it. *)
Definition update_messages_for_topic_edit (table : list Message.t)
    (acting_user : UserProfile.t) (edited_message : Message.t)
    (message_edit_request : StreamMessageEditRequest)
    (edit_history_event : EditHistoryEvent) (last_edit_time : Z)
  : result TopicEdit :=
  let old_stream := orig_stream message_edit_request in
  let* old_recipient_id := assert_is_not_none (Stream.recipient_id old_stream) in
  let messages :=
    propagate_mode_messages edited_message message_edit_request old_recipient_id in
  let messages :=
    if is_stream_edited message_edit_request
    then bulk_access_stream_messages_query acting_user messages old_stream
    else messages in
  let update_fields :=
    topic_edit_update_fields message_edit_request edit_history_event last_edit_time in
  let message_ids :=
    Message.id edited_message :: map Message.id (qs_rows messages table) in
  let propagate := fun table' =>
    let* updated := qs_update messages update_fields table' in
    Ok (updated, qs_rows (id_in message_ids) updated) in
  Ok {| messages := messages; message_ids := message_ids; propagate := propagate |}.

(** The dict [canonical_topic_names] after the loop over the sorted rows. *)
Definition canonical_topic_names (rows : list (string * Z)) : Py.dict (Z * string) :=
  fold_left
    (fun d row =>
       let '(topic_name, max_message_id) := row in
       Py.setitem d (lower topic_name) (max_message_id, topic_name))
    (Py.sorted snd rows) [].

(** The name an entry is given: the fallback name for the empty topic when
    empty names are not allowed. *)
Definition history_name (allow_empty_topic_name : bool) (topic_name : string) : string :=
  if String.eqb topic_name "" && negb allow_empty_topic_name
  then EMPTY_TOPIC_FALLBACK_NAME
  else topic_name.

Definition generate_topic_history_from_db_rows (rows : list (string * Z))
    (allow_empty_topic_name : bool) : list TopicHistoryEntry :=
  let history :=
    map (fun v =>
           let '(max_message_id, topic_name) := v in
           {| name := history_name allow_empty_topic_name topic_name;
              max_id := max_message_id |})
      (Py.values (canonical_topic_names rows)) in
  Py.sorted (fun x => - max_id x) history.

Definition get_topic_resolution_and_bare_name (stored_name : string) : bool * string :=
  if PyStr.startswith stored_name RESOLVED_TOPIC_PREFIX
  then (true, PyStr.removeprefix stored_name RESOLVED_TOPIC_PREFIX)
  else (false, stored_name).

Definition maybe_rename_general_chat_to_empty_topic (topic_name : string) : string :=
  if String.eqb topic_name EMPTY_TOPIC_FALLBACK_NAME then "" else topic_name.

Definition maybe_rename_no_topic_to_empty_topic (topic_name : string) : string :=
  if String.eqb topic_name "(no topic)" then "" else topic_name.

Definition maybe_rename_empty_topic_to_general_chat (topic_name : string)
    (is_channel_message allow_empty_topic_name : bool) : string :=
  if is_channel_message && String.eqb topic_name "" && negb allow_empty_topic_name
  then EMPTY_TOPIC_FALLBACK_NAME
  else topic_name.



Definition get_topic_display_name (topic_name language : string) : string :=
  if String.eqb topic_name "" then gettext language EMPTY_TOPIC_FALLBACK_NAME
  else topic_name.

Definition filter_by_topic_name_via_message (db : Database)
    (query : QuerySet UserMessage.t) (topic_name : string) : QuerySet UserMessage.t :=
  qs_filter query
    (via_message db
       (fun m => Message.is_channel_message m && iexact (Message.subject m) topic_name)).

(** [GROUP BY subject] with [max(id)]: one row for each literal topic, in
    the order the topics are met. *)
Definition group_max (selected : list (string * Z)) : Py.dict Z :=
  fold_left
    (fun d row =>
       let '(topic, id) := row in
       match Py.get d topic with
       | Some best => Py.setitem d topic (Z.max best id)
       | None => Py.setitem d topic id
       end)
    selected [].

(** [ORDER BY max(id) DESC] *)
Definition order_by_max_desc (rows : list (string * Z)) : list (string * Z) :=
  Py.sorted (fun row => - snd row) rows.

(** The [WHERE] clause of both history queries. *)
Definition in_channel (realm_id recipient_id : Z) (m : Message.t) : bool :=
  (Message.realm_id m =? realm_id)
  && (Message.recipient_id m =? recipient_id)
  && Message.is_channel_message m.

(** The rows the cursor fetches in [get_topic_history_for_public_stream]. *)
Definition public_stream_rows (db : Database) (realm_id recipient_id : Z)
  : list (string * Z) :=
  order_by_max_desc
    (group_max
       (map (fun m => (Message.subject m, Message.id m))
          (List.filter (in_channel realm_id recipient_id) (zerver_message db)))).

Definition get_topic_history_for_public_stream (db : Database)
    (realm_id recipient_id : Z) (allow_empty_topic_name : bool)
  : list TopicHistoryEntry :=
  generate_topic_history_from_db_rows (public_stream_rows db realm_id recipient_id)
    allow_empty_topic_name.

(** The rows of the query with the [INNER JOIN] on the delivery records. *)
Definition user_stream_rows (db : Database) (user_profile : UserProfile.t)
    (recipient_id : Z) : list (string * Z) :=
  order_by_max_desc
    (group_max
       (flat_map
          (fun m =>
             flat_map
               (fun um =>
                  if (UserMessage.message_id um =? Message.id m)
                     && (UserMessage.user_profile_id um =? UserProfile.id user_profile)
                     && in_channel (UserProfile.realm_id user_profile) recipient_id m
                  then [(Message.subject m, Message.id m)]
                  else [])
               (zerver_usermessage db))
          (zerver_message db))).

Definition get_topic_history_for_stream (db : Database) (user_profile : UserProfile.t)
    (recipient_id : Z) (public_history allow_empty_topic_name : bool)
  : list TopicHistoryEntry :=
  if public_history then
    get_topic_history_for_public_stream db (UserProfile.realm_id user_profile)
      recipient_id allow_empty_topic_name
  else
    generate_topic_history_from_db_rows (user_stream_rows db user_profile recipient_id)
      allow_empty_topic_name.

(** The three tables are those of messages, reactions and user profiles. *)
Definition participants_for_topic (message_table : list Message.t)
    (reaction_table : list Reaction.t) (userprofile_table : list UserProfile.t)
    (realm_id recipient_id : Z) (topic_name : string) : gset Z :=
  let messages :=
    qs_rows (messages_for_topic realm_id recipient_id topic_name) message_table in
  let sender_ids := map Message.sender_id messages in
  let reactor_ids :=
    map Reaction.user_profile_id
      (List.filter
         (fun r => existsb (Z.eqb (Reaction.message_id r)) (map Message.id messages))
         reaction_table) in
  list_to_set
    (map UserProfile.id
       (List.filter
          (fun u => existsb (Z.eqb (UserProfile.id u)) sender_ids
                    || existsb (Z.eqb (UserProfile.id u)) reactor_ids)
          userprofile_table)).

(** ** Notions the properties are stated with *)

(** The last row of [rows] whose topic has the canonical name [k]. *)
Fixpoint last_row_for (k : string) (rows : list (string * Z)) : option (string * Z) :=
  match rows with
  | [] => None
  | row :: rows' =>
      match last_row_for k rows' with
      | Some r => Some r
      | None => if String.eqb (lower (fst row)) k then Some row else None
      end
  end.

(** [w] is a row of [rows] with the greatest max id among the rows whose
    topic has the same canonical name. *)
Definition latest_variant (rows : list (string * Z)) (w : string * Z) : Prop :=
  w ∈ rows /\ forall r, r ∈ rows -> lower (fst r) = lower (fst w) -> snd r <= snd w.

(** [out] has one entry for each canonical name of [rows], made by
    [entry] from a latest variant of that name. *)
Definition one_entry_per_canonical_name (entry : string -> Z -> TopicHistoryEntry)
    (rows : list (string * Z)) (out : list TopicHistoryEntry) : Prop :=
  exists winners : list (string * Z),
    NoDup (map (fun w => lower (fst w)) winners)
    /\ (forall r, r ∈ rows -> lower (fst r) ∈ map (fun w => lower (fst w)) winners)
    /\ Forall (latest_variant rows) winners
    /\ out ≡ₚ map (fun w => entry (fst w) (snd w)) winners.

(** The stored history of a message decodes to the array [events], an
    absent history to the empty one: for Python and for the database. *)
Definition py_history (m : Message.t) (events : list json) : Prop :=
  match Message.edit_history m with
  | None => events = []
  | Some text => orjson_loads text = Ok (JArr events)
  end.

Definition db_history (m : Message.t) (events : list json) : Prop :=
  match Message.edit_history m with
  | None => events = []
  | Some text => jsonb_in text = Some (JArr events)
  end.

(** The database reads the text of the new event, and the literal of the
    empty array, as what they stand for. *)
Definition db_reads_event (ev : EditHistoryEvent) : Prop :=
  jsonb_in (orjson_dumps (JArr [ev])) = Some (JArr [ev])
  /\ jsonb_in "[]" = Some (JArr []).

(** The access check only ever removes rows from a query set. *)
Definition access_check_restricts : Prop :=
  forall user (q : QuerySet Message.t) stream m,
    bulk_access_stream_messages_query user q stream m = true -> q m = true.

(** A stream change needs the recipient of the target stream. *)
Definition target_recipient_known (req : StreamMessageEditRequest) : Prop :=
  is_stream_edited req = true -> is_Some (Stream.recipient_id (target_stream req)).

(** [m'] is the row [m] after the update of a topic edit: the new event
    is in front of its history, the edit time is set, topic and recipient
    are the target's where the request changes them, the rest is kept. *)
Definition edited_row (req : StreamMessageEditRequest) (ev : EditHistoryEvent)
    (t : Z) (m m' : Message.t) : Prop :=
  Message.id m' = Message.id m
  /\ Message.realm_id m' = Message.realm_id m
  /\ Message.is_channel_message m' = Message.is_channel_message m
  /\ Message.sender_id m' = Message.sender_id m
  /\ Message.last_edit_time m' = Some t
  /\ (exists old, db_history m old
                  /\ Message.edit_history m' = Some (jsonb_out (JArr (ev :: old))))
  /\ Message.subject m'
     = (if is_topic_edited req then target_topic_name req else Message.subject m)
  /\ (if is_stream_edited req
      then Stream.recipient_id (target_stream req) = Some (Message.recipient_id m')
      else Message.recipient_id m' = Message.recipient_id m).

(** The re-fetch of a topic move gives as many rows as there were
    candidates, each under the new topic. *)
Definition refetch_is_candidates (table : list Message.t) (te : TopicEdit)
    (new_topic : string) : Prop :=
  forall updated refetched,
    propagate te table = Ok (updated, refetched) ->
    length refetched = length (qs_rows (messages te) table)
    /\ (forall r, r ∈ refetched -> Message.subject r = new_topic).


(** ** Strings *)

Lemma startswith_app (p s : string) : PyStr.startswith (p +:+ s) p = true.
Proof.
  induction p as [|c p IH]; simpl; [reflexivity|].
  rewrite Ascii.eqb_refl. exact IH.
Qed.

Lemma drop_app (p s : string) : PyStr.drop (String.length p) (p +:+ s) = s.
Proof. induction p as [|c p IH]; simpl; [reflexivity | exact IH]. Qed.

Lemma removeprefix_app (p s : string) : PyStr.removeprefix (p +:+ s) p = s.
Proof. unfold PyStr.removeprefix. rewrite startswith_app. apply drop_app. Qed.

(** C6.  For every name [N] that does not start with the resolution marker,
    the marked name [marker + N] is reported as resolved with bare name [N],
    and [N] itself as unresolved with bare name [N].  The function is a
    total function of its argument alone. *)
Theorem resolution_round_trip (N : string) :
  PyStr.startswith N RESOLVED_TOPIC_PREFIX = false ->
  get_topic_resolution_and_bare_name (RESOLVED_TOPIC_PREFIX +:+ N) = (true, N)
  /\ get_topic_resolution_and_bare_name N = (false, N).
Proof.
  intros Hn. unfold get_topic_resolution_and_bare_name. split.
  - rewrite startswith_app, removeprefix_app. reflexivity.
  - rewrite Hn. reflexivity.
Qed.

(** ** Topic of a message dict *)

(** C9.  The value under ["topic"] is returned when that key is present,
    otherwise the value under ["subject"]; with neither key the lookup of
    ["subject"] raises [KeyError], which is the result of the call. *)
Theorem topic_from_message_info_lookup {V : Type} (message_info : gmap string V) :
  (forall v, message_info !! "topic" = Some v ->
     get_topic_from_message_info message_info = Ok v)
  /\ (forall v, message_info !! "topic" = None -> message_info !! "subject" = Some v ->
        get_topic_from_message_info message_info = Ok v)
  /\ (message_info !! "topic" = None -> message_info !! "subject" = None ->
        get_topic_from_message_info message_info = Raise (KeyError "subject")).
Proof.
  unfold get_topic_from_message_info, Py.contains, Py.getitem.
  repeat split.
  - intros v Hv. rewrite Hv. rewrite bool_decide_eq_true_2 by eauto. reflexivity.
  - intros v Ht Hs. rewrite Ht, Hs.
    rewrite bool_decide_eq_false_2; [reflexivity|]. intros [x Hx]. discriminate.
  - intros Ht Hs. rewrite Ht, Hs.
    rewrite bool_decide_eq_false_2; [reflexivity|]. intros [x Hx]. discriminate.
Qed.

(** ** Latest message of a topic *)

(** C8.  The call raises [AssertionError] whenever the access flag is false,
    given or left to its default, and never when it is true; with the flag
    true, a history that is not public and no user profile give [None]. *)
Theorem latest_message_requires_access_check (db : Database) (realm_id : Z)
    (user_profile : option UserProfile.t) (recipient_id : Z) (topic_name : string)
    (history_public_to_subscribers : bool) :
  get_latest_message_for_user_in_topic db realm_id user_profile recipient_id
    topic_name history_public_to_subscribers (Some false) = Raise AssertionError
  /\ get_latest_message_for_user_in_topic db realm_id user_profile recipient_id
       topic_name history_public_to_subscribers None = Raise AssertionError
  /\ (exists r, get_latest_message_for_user_in_topic db realm_id user_profile
                  recipient_id topic_name history_public_to_subscribers (Some true)
                = Ok r)
  /\ get_latest_message_for_user_in_topic db realm_id None recipient_id
       topic_name false (Some true) = Ok None.
Proof.
  unfold get_latest_message_for_user_in_topic; simpl.
  repeat split; try reflexivity.
  destruct history_public_to_subscribers; [eauto|].
  destruct user_profile; eauto.
Qed.


(** ** Sorting *)

Lemma insort_perm {A : Type} (key : A -> Z) (x : A) (l : list A) :
  Py.insort key x l ≡ₚ x :: l.
Proof.
  induction l as [|y l IH]; simpl; [reflexivity|].
  destruct (key x <=? key y); [reflexivity|].
  rewrite IH. apply perm_swap.
Qed.

Lemma sorted_perm {A : Type} (key : A -> Z) (l : list A) : Py.sorted key l ≡ₚ l.
Proof.
  induction l as [|x l IH]; simpl; [reflexivity|].
  unfold Py.sorted in *. simpl. rewrite insort_perm, IH. reflexivity.
Qed.

Lemma insort_ascending {A : Type} (key : A -> Z) (x : A) (l : list A) :
  StronglySorted (fun a b => key a <= key b) l ->
  StronglySorted (fun a b => key a <= key b) (Py.insort key x l).
Proof.
  induction 1 as [|y l Hl IH Hy]; simpl.
  - constructor; constructor.
  - destruct (key x <=? key y) eqn:E.
    + apply Z.leb_le in E. constructor; [constructor; assumption|].
      constructor; [exact E|].
      eapply Forall_impl; [exact Hy|]. simpl. intros; lia.
    + apply Z.leb_gt in E. constructor; [exact IH|].
      rewrite insort_perm. constructor; [lia | exact Hy].
Qed.

Lemma sorted_ascending {A : Type} (key : A -> Z) (l : list A) :
  StronglySorted (fun a b => key a <= key b) (Py.sorted key l).
Proof.
  induction l as [|x l IH]; [constructor|].
  apply insort_ascending, IH.
Qed.

(** ** Dicts in insertion order *)

Lemma get_setitem {V : Type} (d : Py.dict V) (k k' : string) (v : V) :
  Py.get (Py.setitem d k v) k' = if String.eqb k' k then Some v else Py.get d k'.
Proof.
  induction d as [|[k0 v0] d IH]; simpl.
  - reflexivity.
  - destruct (String.eqb k k0) eqn:E; simpl.
    + apply String.eqb_eq in E. subst k0.
      destruct (String.eqb k' k); reflexivity.
    + destruct (String.eqb k' k0) eqn:E0.
      * apply String.eqb_eq in E0. subst k0.
        rewrite String.eqb_sym in E. rewrite E. reflexivity.
      * exact IH.
Qed.

Lemma setitem_keys {V : Type} (d : Py.dict V) (k : string) (v : V) :
  map fst (Py.setitem d k v) = map fst d
  \/ ((k ∉ map fst d) /\ map fst (Py.setitem d k v) = map fst d ++ [k]).
Proof.
  induction d as [|[k0 v0] d IH]; simpl.
  - right. split; [apply not_elem_of_nil | reflexivity].
  - destruct (String.eqb k k0) eqn:E; simpl.
    + left. reflexivity.
    + apply String.eqb_neq in E.
      destruct IH as [IH | [Hk IH]]; [left | right]; rewrite IH; [reflexivity|].
      split; [|reflexivity].
      rewrite not_elem_of_cons. split; assumption.
Qed.

Lemma setitem_NoDup {V : Type} (d : Py.dict V) (k : string) (v : V) :
  NoDup (map fst d) -> NoDup (map fst (Py.setitem d k v)).
Proof.
  intros Hd. destruct (setitem_keys d k v) as [E | [Hk E]]; rewrite E; [exact Hd|].
  apply NoDup_app. repeat split; [exact Hd | | apply NoDup_singleton].
  intros x Hx Hx'. apply list_elem_of_singleton in Hx'. subst x. contradiction.
Qed.

Lemma get_elem_of {V : Type} (d : Py.dict V) (k : string) (v : V) :
  NoDup (map fst d) -> (k, v) ∈ d -> Py.get d k = Some v.
Proof.
  induction d as [|[k0 v0] d IH]; simpl; intros Hd Hin.
  - apply elem_of_nil in Hin. contradiction.
  - apply NoDup_cons in Hd as [Hk0 Hd].
    apply elem_of_cons in Hin as [Heq | Hin].
    + injection Heq as -> ->. rewrite String.eqb_refl. reflexivity.
    + destruct (String.eqb k k0) eqn:E; [|auto].
      apply String.eqb_eq in E. subst k0. exfalso. apply Hk0.
      apply list_elem_of_fmap. exists (k, v). split; [reflexivity | exact Hin].
Qed.

Lemma get_Some_key {V : Type} (d : Py.dict V) (k : string) (v : V) :
  Py.get d k = Some v -> k ∈ map fst d.
Proof.
  induction d as [|[k0 v0] d IH]; simpl; [discriminate|].
  destruct (String.eqb k k0) eqn:E; intros H.
  - apply String.eqb_eq in E. subst. apply list_elem_of_here.
  - apply list_elem_of_further, IH, H.
Qed.

(** ** Topic history *)

Lemma last_row_for_Some (k : string) (rows : list (string * Z)) (r : string * Z) :
  last_row_for k rows = Some r -> r ∈ rows /\ lower (fst r) = k.
Proof.
  induction rows as [|row rows IH]; simpl; [discriminate|].
  destruct (last_row_for k rows) as [r'|].
  - intros [= ->]. destruct (IH eq_refl) as [Hin Hk].
    split; [apply list_elem_of_further, Hin | exact Hk].
  - destruct (String.eqb (lower (fst row)) k) eqn:E; [|discriminate].
    intros [= ->]. apply String.eqb_eq in E.
    split; [apply list_elem_of_here | exact E].
Qed.

Lemma last_row_for_None (k : string) (rows : list (string * Z)) :
  last_row_for k rows = None -> forall r, r ∈ rows -> lower (fst r) <> k.
Proof.
  induction rows as [|row rows IH]; simpl; intros Hnone r Hr.
  - apply elem_of_nil in Hr. contradiction.
  - destruct (last_row_for k rows) as [r'|]; [discriminate|].
    destruct (String.eqb (lower (fst row)) k) eqn:E; [discriminate|].
    apply String.eqb_neq in E.
    apply elem_of_cons in Hr as [-> | Hr]; [exact E | apply IH; auto].
Qed.

Lemma last_row_for_greatest (k : string) (rows : list (string * Z)) (r : string * Z) :
  StronglySorted (fun a b => snd a <= snd b) rows ->
  last_row_for k rows = Some r ->
  forall r', r' ∈ rows -> lower (fst r') = k -> snd r' <= snd r.
Proof.
  induction 1 as [|row rows Hs IH Hrow]; simpl; intros Hlast r' Hr' Hk.
  - apply elem_of_nil in Hr'. contradiction.
  - destruct (last_row_for k rows) as [r0|] eqn:E.
    + injection Hlast as ->.
      apply elem_of_cons in Hr' as [-> | Hr']; [|apply IH; auto].
      rewrite Forall_forall in Hrow. apply Hrow.
      apply (last_row_for_Some k rows r E).
    + destruct (String.eqb (lower (fst row)) k); [|discriminate].
      injection Hlast as ->.
      apply elem_of_cons in Hr' as [-> | Hr']; [lia|].
      exfalso. exact (last_row_for_None k rows E r' Hr' Hk).
Qed.

(** The body of the loop that fills [canonical_topic_names]. *)
Lemma canonical_fold_get (rows : list (string * Z)) (d : Py.dict (Z * string)) (k : string) :
  Py.get
    (fold_left
       (fun d row =>
          let '(topic_name, max_message_id) := row in
          Py.setitem d (lower topic_name) (max_message_id, topic_name))
       rows d) k
  = match last_row_for k rows with
    | Some r => Some (snd r, fst r)
    | None => Py.get d k
    end.
Proof.
  revert d. induction rows as [|[topic_name max_message_id] rows IH]; intros d; simpl.
  - reflexivity.
  - rewrite IH. destruct (last_row_for k rows); [reflexivity|].
    rewrite get_setitem, String.eqb_sym.
    destruct (String.eqb (lower topic_name) k); reflexivity.
Qed.

Lemma canonical_fold_NoDup (rows : list (string * Z)) (d : Py.dict (Z * string)) :
  NoDup (map fst d) ->
  NoDup
    (map fst
       (fold_left
          (fun d row =>
             let '(topic_name, max_message_id) := row in
             Py.setitem d (lower topic_name) (max_message_id, topic_name))
          rows d)).
Proof.
  revert d. induction rows as [|[topic_name max_message_id] rows IH]; intros d Hd; simpl.
  - exact Hd.
  - apply IH, setitem_NoDup, Hd.
Qed.

Lemma canonical_NoDup (rows : list (string * Z)) :
  NoDup (map fst (canonical_topic_names rows)).
Proof. apply canonical_fold_NoDup. constructor. Qed.

Lemma canonical_entry (rows : list (string * Z)) (k : string) (v : Z * string) :
  (k, v) ∈ canonical_topic_names rows ->
  k = lower (snd v) /\ latest_variant rows (snd v, fst v).
Proof.
  intros Hin. apply get_elem_of in Hin; [|apply canonical_NoDup].
  unfold canonical_topic_names in Hin. rewrite canonical_fold_get in Hin.
  destruct (last_row_for k (Py.sorted snd rows)) as [r|] eqn:E; [|discriminate].
  injection Hin as <-. simpl.
  destruct (last_row_for_Some _ _ _ E) as [Hr Hk].
  split; [symmetry; exact Hk|].
  split.
  - rewrite <- (sorted_perm snd rows). destruct r; exact Hr.
  - intros r' Hr' Hk'. simpl in *.
    apply (last_row_for_greatest k (Py.sorted snd rows) r); auto.
    + apply sorted_ascending.
    + rewrite (sorted_perm snd rows). exact Hr'.
    + congruence.
Qed.

Lemma canonical_covers (rows : list (string * Z)) (r : string * Z) :
  r ∈ rows -> lower (fst r) ∈ map fst (canonical_topic_names rows).
Proof.
  intros Hr. rewrite <- (sorted_perm snd rows) in Hr.
  destruct (Py.get (canonical_topic_names rows) (lower (fst r))) as [v|] eqn:E.
  - apply (get_Some_key _ _ _ E).
  - exfalso. unfold canonical_topic_names in E. rewrite canonical_fold_get in E.
    destruct (last_row_for (lower (fst r)) (Py.sorted snd rows)) eqn:E'; [discriminate|].
    exact (last_row_for_None _ _ E' r Hr eq_refl).
Qed.

(** The history is made of the retained values of the dict, entry by entry. *)
Lemma history_perm (rows : list (string * Z)) (allow_empty_topic_name : bool) :
  generate_topic_history_from_db_rows rows
    allow_empty_topic_name
  ≡ₚ map (fun v => {| name := history_name allow_empty_topic_name (snd v);
                      max_id := fst v |})
       (Py.values (canonical_topic_names rows)).
Proof.
  unfold generate_topic_history_from_db_rows. rewrite sorted_perm.
  erewrite map_ext; [reflexivity|]. intros [max_message_id topic_name]. reflexivity.
Qed.

Lemma history_name_cases (allow_empty_topic_name : bool) (topic_name : string) :
  history_name allow_empty_topic_name topic_name
  = if decide (topic_name = "" /\ allow_empty_topic_name = false)
    then EMPTY_TOPIC_FALLBACK_NAME
    else topic_name.
Proof.
  unfold history_name.
  destruct (String.eqb topic_name "") eqn:E, allow_empty_topic_name; simpl.
  - rewrite decide_False; [reflexivity | intros [_ H]; discriminate].
  - apply String.eqb_eq in E. rewrite decide_True; [reflexivity | auto].
  - rewrite decide_False; [reflexivity | intros [_ H]; discriminate].
  - apply String.eqb_neq in E. rewrite decide_False; [reflexivity | intros [H _]; auto].
Qed.

Lemma winners_names (rows : list (string * Z)) :
  map (fun w : string * Z => lower (fst w))
    (map (fun kv : string * (Z * string) => (snd (snd kv), fst (snd kv)))
       (canonical_topic_names rows))
  = map fst (canonical_topic_names rows).
Proof.
  rewrite map_map. apply map_ext_in. intros [k v] Hin. simpl.
  apply list_elem_of_In in Hin. symmetry. apply (canonical_entry rows k v Hin).
Qed.

(** C1, as the code has it.  The history has exactly one entry for each
    canonical (lower-cased) topic name of the rows; the entry carries the
    max id and the literal name of a row with the greatest max id among the
    case variants of that name, the empty name being shown as the fallback
    name when empty names are not allowed.  Three case variants of one name,
    [("Bug", 5)], [("BUG", 10)] and [("bug", 3)], give the single entry
    [BUG] with max id 10. *)
Theorem topic_history_canonicalization (rows : list (string * Z))
    (allow_empty_topic_name : bool) :
  one_entry_per_canonical_name
    (fun n i => {| name := history_name allow_empty_topic_name n; max_id := i |})
    rows (generate_topic_history_from_db_rows rows allow_empty_topic_name)
  /\ (lower "Bug" = lower "BUG" -> lower "bug" = lower "BUG" ->
      generate_topic_history_from_db_rows [("Bug", 5); ("BUG", 10); ("bug", 3)]
        allow_empty_topic_name
      = [{| name := "BUG"; max_id := 10 |}]).
Proof.
  split.
  - exists (map (fun kv : string * (Z * string) => (snd (snd kv), fst (snd kv)))
              (canonical_topic_names rows)).
    rewrite winners_names. repeat split.
    + apply canonical_NoDup.
    + apply canonical_covers.
    + rewrite Forall_forall. intros w Hw.
      apply list_elem_of_fmap in Hw as [[k v] [-> Hkv]].
      apply (canonical_entry rows k v Hkv).
    + rewrite history_perm. unfold Py.values. rewrite !map_map. reflexivity.
  - intros H1 H2.
    unfold generate_topic_history_from_db_rows, canonical_topic_names. simpl.
    rewrite H1, H2. simpl. rewrite String.eqb_refl. simpl.
    rewrite String.eqb_refl. reflexivity.
Qed.

(** C7.  The single row [("", 7)] gives the entry with the fallback name
    and max id 7 when empty names are not allowed, and the entry with the
    empty name when they are.  In general every retained entry is emitted
    once, under the fallback name exactly when its literal name is empty
    and empty names are not allowed, under its literal name otherwise. *)
Theorem empty_topic_fallback (rows : list (string * Z)) (allow_empty_topic_name : bool) :
  generate_topic_history_from_db_rows [("", 7)] false
  = [{| name := EMPTY_TOPIC_FALLBACK_NAME; max_id := 7 |}]
  /\ generate_topic_history_from_db_rows [("", 7)] true
     = [{| name := ""; max_id := 7 |}]
  /\ generate_topic_history_from_db_rows rows allow_empty_topic_name
     ≡ₚ map (fun v : Z * string =>
               {| name := if decide (snd v = "" /\ allow_empty_topic_name = false)
                          then EMPTY_TOPIC_FALLBACK_NAME
                          else snd v;
                  max_id := fst v |})
          (Py.values (canonical_topic_names rows)).
Proof.
  repeat split; try reflexivity.
  rewrite history_perm. erewrite map_ext; [reflexivity|].
  intros v. simpl. rewrite history_name_cases. reflexivity.
Qed.

(** ** Edit history and the bulk update *)

Lemma update_row_edited (req : StreamMessageEditRequest) (ev : EditHistoryEvent)
    (t : Z) (m : Message.t) (old : list json) :
  db_reads_event ev ->
  target_recipient_known req ->
  db_history m old ->
  exists m', update_row (topic_edit_update_fields req ev t) m = Ok m'
             /\ edited_row req ev t m m'.
Proof.
  intros [Hev Hnil] Htarget Hold.
  assert (Heval : eval m (edit_history_expr ev)
                  = Ok (SqlText (jsonb_out (JArr (ev :: old))))).
  { unfold edit_history_expr. simpl. unfold column_value. simpl. rewrite Hev.
    unfold db_history in Hold.
    destruct (Message.edit_history m) as [text|]; simpl.
    - rewrite Hold. reflexivity.
    - rewrite Hnil. subst old. reflexivity. }
  unfold update_row, edited_row, target_recipient_known in *.
  change (uf_edit_history (topic_edit_update_fields req ev t))
    with (edit_history_expr ev).
  rewrite Heval. unfold topic_edit_update_fields. simpl.
  destruct (is_stream_edited req) eqn:Es.
  - destruct (Htarget eq_refl) as [r Hr]. rewrite Hr. simpl.
    eexists. split; [reflexivity|]. simpl.
    repeat split; try reflexivity; eauto.
    destruct (is_topic_edited req); reflexivity.
  - simpl. eexists. split; [reflexivity|]. simpl.
    repeat split; try reflexivity; eauto.
    destruct (is_topic_edited req); reflexivity.
Qed.

Lemma db_history_unique (m : Message.t) (old old' : list json) :
  db_history m old -> db_history m old' -> old' = old.
Proof.
  unfold db_history. destruct (Message.edit_history m) as [text|].
  - intros H H'. rewrite H in H'. injection H' as <-. reflexivity.
  - intros -> ->. reflexivity.
Qed.

(** C3.  One edit puts the new event in front of the stored history, an
    absent history counting as the empty list, and stores the text of the
    resulting array.  After [update_edit_history] the message holds, in
    [edit_history], the text of the array with the new event first and the
    stored events after it, which [orjson] reads back as that array when
    it reads what it writes; its [last_edit_time] is the time of the edit
    and its other fields are as they were.  The [edit_history] expression
    of the bulk update evaluates on a row to the text of the same array,
    and the update stores that text in the row.  The array is one longer,
    the new event is at index 0, and the events that were there follow in
    their order.  The event and the stored events are ones [orjson] can
    encode. *)
Theorem edit_history_prepend (m : Message.t) (t : Z) (ev : EditHistoryEvent)
    (old : list json) :
  py_history m old ->
  db_history m old ->
  db_reads_event ev ->
  orjson_encodes (JArr (ev :: old)) = true ->
  update_edit_history m t ev
  = (set_edit_history (set_last_edit_time m t)
       (Some (orjson_dumps (JArr (ev :: old)))), Ok tt)
  /\ Message.edit_history (fst (update_edit_history m t ev))
     = Some (orjson_dumps (JArr (ev :: old)))
  /\ Message.last_edit_time (fst (update_edit_history m t ev)) = Some t
  /\ (Message.id (fst (update_edit_history m t ev)) = Message.id m
      /\ Message.realm_id (fst (update_edit_history m t ev)) = Message.realm_id m
      /\ Message.recipient_id (fst (update_edit_history m t ev))
         = Message.recipient_id m
      /\ Message.subject (fst (update_edit_history m t ev)) = Message.subject m
      /\ Message.is_channel_message (fst (update_edit_history m t ev))
         = Message.is_channel_message m
      /\ Message.sender_id (fst (update_edit_history m t ev)) = Message.sender_id m)
  /\ (orjson_loads (orjson_dumps (JArr (ev :: old))) = Ok (JArr (ev :: old)) ->
      py_history (fst (update_edit_history m t ev)) (ev :: old))
  /\ eval m (edit_history_expr ev) = Ok (SqlText (jsonb_out (JArr (ev :: old))))
  /\ (forall req t',
        target_recipient_known req ->
        exists row,
          update_row (topic_edit_update_fields req ev t') m = Ok row
          /\ Message.edit_history row = Some (jsonb_out (JArr (ev :: old)))
          /\ Message.last_edit_time row = Some t')
  /\ length (ev :: old) = S (length old)
  /\ (ev :: old) !! 0%nat = Some ev
  /\ (forall i : nat, (ev :: old) !! S i = old !! i).
Proof.
  intros Hpy Hdb Hev Henc.
  assert (Hrun : update_edit_history m t ev
                 = (set_edit_history (set_last_edit_time m t)
                      (Some (orjson_dumps (JArr (ev :: old)))), Ok tt)).
  { unfold update_edit_history, py_history, EditHistoryEvent in *. simpl.
    destruct (Message.edit_history m) as [text|].
    - rewrite Hpy. simpl. rewrite Henc. reflexivity.
    - subst old. simpl. rewrite Henc. reflexivity. }
  rewrite Hrun. simpl.
  split; [reflexivity|]. split; [reflexivity|]. split; [reflexivity|].
  split; [repeat split|]. split; [|split; [|split]].
  - intros Hread. unfold py_history. simpl. exact Hread.
  - destruct Hev as [Hevent Hnil]. unfold db_history in Hdb.
    unfold edit_history_expr. simpl. unfold column_value. simpl.
    rewrite Hevent.
    destruct (Message.edit_history m) as [text|]; simpl.
    + rewrite Hdb. reflexivity.
    + rewrite Hnil. subst old. reflexivity.
  - intros req t' Htarget.
    destruct (update_row_edited req ev t' m old Hev Htarget Hdb)
      as (row & Hrow & _ & _ & _ & _ & Htime & (old' & Hold' & Hhist) & _).
    exists row. split; [exact Hrow|]. split; [|exact Htime].
    rewrite (db_history_unique m old old' Hdb Hold') in Hhist. exact Hhist.
  - repeat split.
Qed.

Lemma update_row_id (fields : UpdateFields) (m m' : Message.t) :
  update_row fields m = Ok m' -> Message.id m' = Message.id m.
Proof.
  unfold update_row. intros H.
  destruct (eval m (uf_edit_history fields)) as [[|text|j]|]; simpl in H; try discriminate;
    destruct (uf_recipient fields) as [[r|]|]; simpl in H; try discriminate;
    injection H as <-; reflexivity.
Qed.


(** ** The topic move *)

(** What the function returns when the original stream has a recipient. *)
Lemma topic_edit_returns (table : list Message.t) (acting_user : UserProfile.t)
    (edited_message : Message.t) (req : StreamMessageEditRequest)
    (ev : EditHistoryEvent) (t rid : Z) :
  Stream.recipient_id (orig_stream req) = Some rid ->
  exists te,
    update_messages_for_topic_edit table acting_user edited_message req ev t = Ok te
    /\ messages te
       = (if is_stream_edited req
          then bulk_access_stream_messages_query acting_user
                 (propagate_mode_messages edited_message req rid) (orig_stream req)
          else propagate_mode_messages edited_message req rid)
    /\ message_ids te
       = Message.id edited_message :: map Message.id (qs_rows (messages te) table)
    /\ (forall table',
          propagate te table'
          = (let* updated :=
               qs_update (messages te) (topic_edit_update_fields req ev t) table' in
             Ok (updated, qs_rows (id_in (message_ids te)) updated))).
Proof.
  intros Hrid. unfold update_messages_for_topic_edit. rewrite Hrid. simpl.
  eexists. split; [reflexivity|]. simpl. repeat split.
Qed.



Lemma mode_messages_all (edited_message : Message.t) (req : StreamMessageEditRequest)
    (rid : Z) (m : Message.t) :
  propagate_mode req = change_all ->
  propagate_mode_messages edited_message req rid m = true ->
  Message.id m <> Message.id edited_message.
Proof.
  intros Hmode. unfold propagate_mode_messages. rewrite Hmode. simpl.
  unfold qs_exclude. intros H. apply andb_true_iff in H as [_ H].
  apply negb_true_iff, Z.eqb_neq in H. exact H.
Qed.



(** ** The re-fetch by captured ids *)

Lemma id_in_elem (ids : list Z) (m : Message.t) :
  id_in ids m = true <-> Message.id m ∈ ids.
Proof.
  unfold id_in. rewrite existsb_exists. split.
  - intros (x & Hx & E). apply Z.eqb_eq in E. subst x. apply list_elem_of_In, Hx.
  - intros H. exists (Message.id m). split; [apply list_elem_of_In, H | apply Z.eqb_refl].
Qed.

Lemma id_in_same (ids : list Z) (m m' : Message.t) :
  Message.id m' = Message.id m -> id_in ids m' = id_in ids m.
Proof. unfold id_in. intros ->. reflexivity. Qed.

Lemma NoDup_map_eq {A B : Type} (f : A -> B) (l : list A) (x y : A) :
  NoDup (map f l) -> x ∈ l -> y ∈ l -> f x = f y -> x = y.
Proof.
  induction l as [|a l IH]; simpl; intros Hd Hx Hy Hf.
  - apply elem_of_nil in Hx. contradiction.
  - apply NoDup_cons in Hd as [Ha Hd].
    apply elem_of_cons in Hx as [-> | Hx]; apply elem_of_cons in Hy as [-> | Hy].
    + reflexivity.
    + exfalso. apply Ha. rewrite Hf. apply (list_elem_of_fmap_2 f), Hy.
    + exfalso. apply Ha. rewrite <- Hf. apply (list_elem_of_fmap_2 f), Hx.
    + apply IH; assumption.
Qed.


Lemma Forall2_elem_of_r {A B : Type} (R : A -> B -> Prop) (l : list A) (k : list B)
    (y : B) :
  Forall2 R l k -> y ∈ k -> exists x, x ∈ l /\ R x y.
Proof.
  induction 1 as [|x y' l k Hxy H IH]; intros Hy.
  - apply elem_of_nil in Hy. contradiction.
  - apply elem_of_cons in Hy as [-> | Hy].
    + exists x. split; [apply list_elem_of_here | exact Hxy].
    + destruct (IH Hy) as (x' & Hx' & HR).
      exists x'. split; [apply list_elem_of_further, Hx' | exact HR].
Qed.

Lemma filter_length_split {A : Type} (p : A -> bool) (l : list A) :
  length l
  = (length (List.filter (fun a => negb (p a)) l) + length (List.filter p l))%nat.
Proof.
  induction l as [|a l IH]; simpl; [reflexivity|].
  destruct (p a); simpl; lia.
Qed.

(** The update of a topic edit returns when the rows it rewrites have a
    well-formed history, and gives each row as [edited_row] says. *)
Lemma qs_update_edited (q : QuerySet Message.t) (req : StreamMessageEditRequest)
    (ev : EditHistoryEvent) (t : Z) (table : list Message.t) :
  db_reads_event ev ->
  target_recipient_known req ->
  (forall m, m ∈ table -> q m = true -> exists old, db_history m old) ->
  exists updated,
    qs_update q (topic_edit_update_fields req ev t) table = Ok updated
    /\ Forall2 (fun m m' => if q m then edited_row req ev t m m' else m' = m)
         table updated.
Proof.
  intros Hev Htarget. induction table as [|row table IH]; intros Hrows; simpl.
  - exists []. split; [reflexivity | constructor].
  - destruct IH as (rest & Hrest & HF).
    { intros m Hm. apply Hrows, list_elem_of_further, Hm. }
    rewrite Hrest. destruct (q row) eqn:Eq.
    + destruct (Hrows row (list_elem_of_here _ _) Eq) as [old Hold].
      destruct (update_row_edited req ev t row old Hev Htarget Hold) as (row' & Hrow' & He).
      rewrite Hrow'. simpl. exists (row' :: rest). split; [reflexivity|].
      constructor; [rewrite Eq; exact He | exact HF].
    + simpl. exists (row :: rest). split; [reflexivity|].
      constructor; [rewrite Eq; reflexivity | exact HF].
Qed.

(** The rows fetched by the captured ids: the rewritten rows of the query
    set, and the stored row of the edited message. *)
Lemma refetch_split (R : Message.t -> Message.t -> Prop) (q : QuerySet Message.t)
    (eid : Z) (ids : list Z) (table updated : list Message.t) :
  (forall m m', R m m' -> Message.id m' = Message.id m) ->
  Forall (fun m => (q m = true -> Message.id m <> eid /\ id_in ids m = true)
                   /\ (q m = false -> id_in ids m = (Message.id m =? eid))) table ->
  Forall2 (fun m m' => if q m then R m m' else m' = m) table updated ->
  Forall2 R (qs_rows q table)
    (List.filter (fun r => negb (Message.id r =? eid)) (qs_rows (id_in ids) updated))
  /\ List.filter (fun r => Message.id r =? eid) (qs_rows (id_in ids) updated)
     = List.filter (fun r => Message.id r =? eid) table.
Proof.
  intros HR Hall H2. unfold qs_rows.
  induction H2 as [|m m' table updated Hmm' H2 IH]; simpl.
  - split; [constructor | reflexivity].
  - apply Forall_cons in Hall as [[Ha Hb] Hall].
    destruct (IH Hall) as [IH1 IH2].
    destruct (q m) eqn:Eq.
    + destruct (Ha eq_refl) as [Hne Hin].
      pose proof (HR m m' Hmm') as Hid.
      rewrite (id_in_same ids m m' Hid), Hin. simpl. rewrite Hid.
      apply Z.eqb_neq in Hne. rewrite Hne. simpl.
      split; [constructor; assumption | exact IH2].
    + subst m'. rewrite (Hb eq_refl).
      destruct (Message.id m =? eid) eqn:E; simpl; rewrite ?E; simpl.
      * split; [exact IH1 | f_equal; exact IH2].
      * split; [exact IH1 | exact IH2].
Qed.

Lemma edited_row_id (req : StreamMessageEditRequest) (ev : EditHistoryEvent) (t : Z)
    (m m' : Message.t) :
  edited_row req ev t m m' -> Message.id m' = Message.id m.
Proof. intros [H _]. exact H. Qed.

(** C2, as the code has it.  In a move of a topic to a new name with
    [change_all], the captured ids are the edited message's id and then the
    id of every candidate row, read before the update.  The deferred
    re-fetch by those ids gives every candidate row exactly once, none lost
    or duplicated, rewritten by the update and so under the new topic,
    together with the row stored under the edited message's id, which the
    update does not touch: one row more than the candidates when the
    edited message is stored. *)
Theorem topic_move_refetch (table table' : list Message.t) (acting_user : UserProfile.t)
    (edited_message : Message.t) (req : StreamMessageEditRequest)
    (ev : EditHistoryEvent) (t rid : Z) :
  propagate_mode req = change_all ->
  is_stream_edited req = false ->
  is_topic_edited req = true ->
  Stream.recipient_id (orig_stream req) = Some rid ->
  db_reads_event ev ->
  exists te,
    update_messages_for_topic_edit table acting_user edited_message req ev t = Ok te
    /\ message_ids te
       = Message.id edited_message :: map Message.id (qs_rows (messages te) table)
    /\ (NoDup (map Message.id table') ->
        qs_rows (messages te) table' = qs_rows (messages te) table ->
        (forall m, m ∈ table' -> exists old, db_history m old) ->
        exists updated refetched,
          propagate te table' = Ok (updated, refetched)
          /\ Forall2 (edited_row req ev t) (qs_rows (messages te) table)
               (List.filter
                  (fun r => negb (Message.id r =? Message.id edited_message))
                  refetched)
          /\ List.filter (fun r => Message.id r =? Message.id edited_message) refetched
             = List.filter (fun r => Message.id r =? Message.id edited_message) table'
          /\ (forall r, r ∈ refetched ->
                        Message.id r <> Message.id edited_message ->
                        Message.subject r = target_topic_name req)
          /\ length refetched
             = Nat.add (length (qs_rows (messages te) table))
                 (length (List.filter
                            (fun r => Message.id r =? Message.id edited_message)
                            table'))).
Proof.
  intros Hmode Hstream Htopic Hrid Hev.
  destruct (topic_edit_returns table acting_user edited_message req ev t rid Hrid)
    as (te & Hte & Hq & Hids & Hprop).
  rewrite Hstream in Hq.
  exists te. split; [exact Hte|]. split; [exact Hids|].
  intros Hnodup Hsame Hhist.
  assert (Htarget : target_recipient_known req).
  { intros H. rewrite Hstream in H. discriminate. }
  destruct (qs_update_edited (messages te) req ev t table' Hev Htarget)
    as (updated & Hupd & HF).
  { intros m Hm _. apply Hhist, Hm. }
  exists updated, (qs_rows (id_in (message_ids te)) updated).
  split; [rewrite Hprop, Hupd; reflexivity|].
  destruct (refetch_split (edited_row req ev t) (messages te)
              (Message.id edited_message) (message_ids te) table' updated)
    as [H1 H2]; [apply edited_row_id | | exact HF |].
  { rewrite Forall_forall. intros m Hm. split.
    - intros Hqm. split.
      + apply (mode_messages_all edited_message req rid m Hmode). rewrite <- Hq. exact Hqm.
      + apply id_in_elem. rewrite Hids, <- Hsame. apply list_elem_of_further.
        apply (list_elem_of_fmap_2 Message.id).
        apply list_elem_of_In, filter_In. split; [apply list_elem_of_In, Hm | exact Hqm].
    - intros Hqm. rewrite Hids. unfold id_in. simpl.
      destruct (existsb (Z.eqb (Message.id m))
                  (map Message.id (qs_rows (messages te) table))) eqn:E;
        [|apply orb_false_r].
      exfalso. change (id_in (map Message.id (qs_rows (messages te) table)) m = true) in E.
      apply id_in_elem in E. rewrite <- Hsame in E.
      apply list_elem_of_fmap in E as (c & Hc & Hcin).
      apply list_elem_of_In, filter_In in Hcin as [Hcin Hqc].
      apply list_elem_of_In in Hcin.
      assert (m = c) by (apply (NoDup_map_eq Message.id table'); assumption).
      subst c. congruence. }
  rewrite Hsame in H1.
  split; [exact H1|]. split; [exact H2|]. split.
  - intros r Hr Hne.
    assert (Hr' : r ∈ List.filter
                        (fun r => negb (Message.id r =? Message.id edited_message))
                        (qs_rows (id_in (message_ids te)) updated)).
    { apply list_elem_of_In, filter_In. split; [apply list_elem_of_In, Hr|].
      apply negb_true_iff, Z.eqb_neq, Hne. }
    destruct (Forall2_elem_of_r _ _ _ _ H1 Hr') as (m & _ & He).
    destruct He as (_ & _ & _ & _ & _ & _ & Hs & _).
    rewrite Hs, Htopic. reflexivity.
  - rewrite (filter_length_split
               (fun r => Message.id r =? Message.id edited_message)
               (qs_rows (id_in (message_ids te)) updated)).
    rewrite H2. rewrite <- (Forall2_length _ _ _ H1). reflexivity.
Qed.



(** ** Further properties: topic names *)

Lemma startswith_drop (s p : string) :
  PyStr.startswith s p = true -> p +:+ PyStr.drop (String.length p) s = s.
Proof.
  revert s. induction p as [|c p IH]; intros s; simpl; [reflexivity|].
  destruct s as [|d s]; [discriminate|].
  destruct (Ascii.eqb c d) eqn:E; [|discriminate].
  apply Ascii.eqb_eq in E. subst d. intros H.
  transitivity (String c (p +:+ PyStr.drop (String.length p) s));
    [reflexivity | f_equal; apply IH, H].
Qed.

(** X1.  The resolution marker and the bare name lose nothing: putting
    the marker back in front of the bare name of a resolved topic, and
    taking the bare name of an unresolved one, gives the stored name; the
    flag is true exactly when the stored name starts with the marker.
    One marker is taken off and no more: a name with the marker in front
    is resolved with the rest as bare name, whatever the rest starts with. *)
Theorem resolution_is_lossless (stored_name : string) :
  (let '(resolved, bare) := get_topic_resolution_and_bare_name stored_name in
   (if resolved then RESOLVED_TOPIC_PREFIX +:+ bare else bare) = stored_name
   /\ resolved = PyStr.startswith stored_name RESOLVED_TOPIC_PREFIX)
  /\ get_topic_resolution_and_bare_name (RESOLVED_TOPIC_PREFIX +:+ stored_name)
     = (true, stored_name).
Proof.
  split.
  - unfold get_topic_resolution_and_bare_name, PyStr.removeprefix.
    destruct (PyStr.startswith stored_name RESOLVED_TOPIC_PREFIX) eqn:E.
    + split; [apply startswith_drop, E | reflexivity].
    + split; reflexivity.
  - unfold get_topic_resolution_and_bare_name.
    rewrite startswith_app, removeprefix_app. reflexivity.
Qed.

(** X2.  The two renamings of the empty topic undo each other except on
    one name each.  For a channel message with empty names not allowed,
    showing a name and reading it back gives the name again unless it is
    the fallback name itself, which is read back as the empty topic; and
    reading a name and showing it gives the name again unless it is empty.
    When empty names are allowed, or the message is not a channel message,
    showing changes nothing. *)
Theorem empty_topic_renamings_round_trip (topic_name : string)
    (is_channel_message allow_empty_topic_name : bool) :
  (topic_name <> EMPTY_TOPIC_FALLBACK_NAME ->
   maybe_rename_general_chat_to_empty_topic
     (maybe_rename_empty_topic_to_general_chat topic_name true false) = topic_name)
  /\ maybe_rename_general_chat_to_empty_topic
       (maybe_rename_empty_topic_to_general_chat EMPTY_TOPIC_FALLBACK_NAME
          is_channel_message allow_empty_topic_name) = ""
  /\ (topic_name <> "" ->
      maybe_rename_empty_topic_to_general_chat
        (maybe_rename_general_chat_to_empty_topic topic_name) true false = topic_name)
  /\ (is_channel_message = false \/ allow_empty_topic_name = true ->
      maybe_rename_empty_topic_to_general_chat topic_name is_channel_message
        allow_empty_topic_name = topic_name).
Proof.
  unfold maybe_rename_general_chat_to_empty_topic,
    maybe_rename_empty_topic_to_general_chat.
  repeat split.
  - intros Hne. simpl. destruct (String.eqb topic_name "") eqn:E; simpl.
    + rewrite String.eqb_refl. apply String.eqb_eq in E. auto.
    + apply String.eqb_neq in Hne. rewrite Hne. reflexivity.
  - destruct (is_channel_message && String.eqb EMPTY_TOPIC_FALLBACK_NAME ""
              && negb allow_empty_topic_name);
      rewrite String.eqb_refl; reflexivity.
  - intros Hne. destruct (String.eqb topic_name EMPTY_TOPIC_FALLBACK_NAME) eqn:E; simpl.
    + apply String.eqb_eq in E. auto.
    + apply String.eqb_neq in Hne. rewrite Hne. reflexivity.
  - intros [-> | ->]; simpl; [reflexivity|].
    rewrite andb_false_r. reflexivity.
Qed.

(** ** Further properties: topic history *)

Lemma StronglySorted_weaken {A : Type} (R S : A -> A -> Prop) (l : list A) :
  (forall a b, R a b -> S a b) -> StronglySorted R l -> StronglySorted S l.
Proof.
  intros HRS. induction 1 as [|x l Hl IH Hx]; constructor; [exact IH|].
  eapply Forall_impl; [exact Hx | apply HRS].
Qed.

(** Two ascending lists with the same elements and pairwise distinct keys
    are the same list. *)
Lemma ascending_perm_eq {A : Type} (key : A -> Z) (a b : list A) :
  StronglySorted (fun x y => key x <= key y) a ->
  StronglySorted (fun x y => key x <= key y) b ->
  a ≡ₚ b ->
  NoDup (map key a) ->
  a = b.
Proof.
  revert b. induction a as [|x a IH]; intros b Ha Hb Hp Hnd.
  - symmetry. apply Permutation_nil. exact Hp.
  - destruct b as [|y b].
    { symmetry in Hp. apply Permutation_nil in Hp. discriminate. }
    apply StronglySorted_inv in Ha as [Ha Hxa].
    apply StronglySorted_inv in Hb as [Hb Hyb].
    rewrite Forall_forall in Hxa. rewrite Forall_forall in Hyb.
    assert (Hx : x ∈ y :: b) by (rewrite <- Hp; apply list_elem_of_here).
    assert (Hy : y ∈ x :: a) by (rewrite Hp; apply list_elem_of_here).
    assert (Hkey : key x = key y).
    { apply elem_of_cons in Hx as [-> | Hx]; [reflexivity|].
      apply elem_of_cons in Hy as [-> | Hy]; [reflexivity|].
      specialize (Hxa y Hy). specialize (Hyb x Hx). lia. }
    assert (x = y).
    { apply (NoDup_map_eq key (x :: a)); auto. apply list_elem_of_here. }
    subst y. f_equal. apply IH; auto.
    + apply (Permutation_cons_inv Hp).
    + simpl in Hnd. apply NoDup_cons in Hnd as [_ Hnd]. exact Hnd.
Qed.

Lemma sorted_of_perm {A : Type} (key : A -> Z) (l l' : list A) :
  l ≡ₚ l' -> NoDup (map key l) -> Py.sorted key l = Py.sorted key l'.
Proof.
  intros Hp Hnd. apply (ascending_perm_eq key).
  - apply sorted_ascending.
  - apply sorted_ascending.
  - rewrite !sorted_perm. exact Hp.
  - apply NoDup_ListNoDup.
    eapply Permutation_NoDup; [|apply NoDup_ListNoDup, Hnd].
    apply Permutation_map. symmetry. apply sorted_perm.
Qed.

(** X3.  The history is in descending order of max id: no entry has a
    greater max id than an entry before it. *)
Theorem history_is_sorted_descending (rows : list (string * Z))
    (allow_empty_topic_name : bool) :
  StronglySorted (fun a b => max_id b <= max_id a)
    (generate_topic_history_from_db_rows rows allow_empty_topic_name).
Proof.
  unfold generate_topic_history_from_db_rows.
  eapply StronglySorted_weaken; [|apply sorted_ascending].
  simpl. intros a b H. lia.
Qed.

(** X4.  When the max ids of the rows are pairwise distinct, as those of
    grouped message ids are, the history does not depend on the order the
    rows arrive in. *)
Theorem history_ignores_row_order (rows rows' : list (string * Z))
    (allow_empty_topic_name : bool) :
  rows ≡ₚ rows' ->
  NoDup (map snd rows) ->
  generate_topic_history_from_db_rows rows allow_empty_topic_name
  = generate_topic_history_from_db_rows rows' allow_empty_topic_name.
Proof.
  intros Hp Hnd. unfold generate_topic_history_from_db_rows, canonical_topic_names.
  rewrite (sorted_of_perm snd rows rows' Hp Hnd). reflexivity.
Qed.

(** X5.  When empty names are not allowed and the fallback name is not
    empty, no entry of the history has an empty name. *)
Theorem history_has_no_empty_name (rows : list (string * Z)) (e : TopicHistoryEntry) :
  EMPTY_TOPIC_FALLBACK_NAME <> "" ->
  e ∈ generate_topic_history_from_db_rows rows false ->
  name e <> "".
Proof.
  intros Hfb He. rewrite history_perm in He.
  apply list_elem_of_fmap in He as ([max_message_id topic_name] & -> & _). simpl.
  unfold history_name. simpl.
  destruct (String.eqb topic_name "") eqn:E; simpl; [exact Hfb|].
  apply String.eqb_neq, E.
Qed.

(** X6.  The history never has more entries than there are rows, and
    rows whose topics have pairwise distinct canonical names are all kept:
    the history is then an entry for each row, with the row's max id. *)
Theorem history_merges_only_case_variants (rows : list (string * Z))
    (allow_empty_topic_name : bool) :
  (length (generate_topic_history_from_db_rows rows allow_empty_topic_name)
   <= length rows)%nat
  /\ (NoDup (map (fun r => lower (fst r)) rows) ->
      generate_topic_history_from_db_rows rows allow_empty_topic_name
      ≡ₚ map (fun r => {| name := history_name allow_empty_topic_name (fst r);
                          max_id := snd r |}) rows).
Proof.
  split.
  - rewrite history_perm. unfold Py.values. rewrite !length_map.
    rewrite <- (length_map fst (canonical_topic_names rows)).
    rewrite <- (length_map (fun r : string * Z => lower (fst r)) rows).
    apply submseteq_length, NoDup_submseteq; [apply canonical_NoDup|].
    intros k Hk. apply list_elem_of_fmap in Hk as ([k' v] & -> & Hkv). simpl.
    destruct (canonical_entry rows k' v Hkv) as [-> [Hin _]].
    apply (list_elem_of_fmap_2 (fun r : string * Z => lower (fst r)) _ _ Hin).
  - intros Hnd. rewrite history_perm. unfold Py.values. rewrite map_map.
    transitivity
      (map (fun r : string * Z =>
              {| name := history_name allow_empty_topic_name (fst r); max_id := snd r |})
         (map (fun kv : string * (Z * string) => (snd (snd kv), fst (snd kv)))
            (canonical_topic_names rows))).
    { rewrite map_map. reflexivity. }
    apply Permutation_map. apply NoDup_Permutation.
    + apply (NoDup_fmap_1 (fun w : string * Z => lower (fst w))).
      change (NoDup (map (fun w : string * Z => lower (fst w))
                       (map (fun kv : string * (Z * string) =>
                               (snd (snd kv), fst (snd kv)))
                          (canonical_topic_names rows)))).
      rewrite winners_names. apply canonical_NoDup.
    + apply (NoDup_fmap_1 (fun w : string * Z => lower (fst w))). exact Hnd.
    + intros r. split.
      * intros Hr. apply list_elem_of_fmap in Hr as ([k v] & -> & Hkv).
        apply (canonical_entry rows k v Hkv).
      * intros Hr.
        pose proof (canonical_covers rows r Hr) as Hk.
        apply list_elem_of_fmap in Hk as ([k v] & Hkeq & Hkv). simpl in Hkeq.
        destruct (canonical_entry rows k v Hkv) as [Hk' [Hin _]].
        assert (r = (snd v, fst v)).
        { apply (NoDup_map_eq (fun r : string * Z => lower (fst r)) rows); auto.
          simpl. congruence. }
        subst r.
        apply (list_elem_of_fmap_2
                 (fun kv : string * (Z * string) => (snd (snd kv), fst (snd kv)))
                 _ _ Hkv).
Qed.

(** ** Further properties: edit history *)

(** X7.  When the stored history cannot be extended, because its text is
    not JSON or is JSON but not an array, [update_edit_history] raises the
    decoder's exception or [AttributeError] and leaves the stored history
    as it was; [last_edit_time] has been overwritten all the same. *)
Theorem update_edit_history_failure (m : Message.t) (t : Z) (ev : EditHistoryEvent)
    (text : string) :
  Message.edit_history m = Some text ->
  (forall e, orjson_loads text = Raise e ->
     update_edit_history m t ev = (set_last_edit_time m t, Raise e))
  /\ (forall v, orjson_loads text = Ok v -> (forall items, v <> JArr items) ->
        update_edit_history m t ev = (set_last_edit_time m t, Raise AttributeError))
  /\ Message.edit_history (set_last_edit_time m t) = Some text
  /\ Message.last_edit_time (set_last_edit_time m t) = Some t.
Proof.
  intros Hm. unfold update_edit_history. simpl. rewrite Hm.
  repeat split.
  - intros e He. rewrite He. reflexivity.
  - intros v Hv Hnot. rewrite Hv. simpl.
    destruct v; try reflexivity. exfalso. exact (Hnot items eq_refl).
Qed.

(** X8.  Two edits in a row both return, and leave in [edit_history]
    the text of the array with the later event first, then the earlier
    one, then the history that was stored, and in [last_edit_time] the
    time of the later edit, the other fields being as they were; this is
    so when [orjson] can encode both arrays and reads back the one it has
    written first. *)
Theorem update_edit_history_twice (m : Message.t) (t1 t2 : Z)
    (ev1 ev2 : EditHistoryEvent) (old : list json) :
  py_history m old ->
  orjson_encodes (JArr (ev1 :: old)) = true ->
  orjson_encodes (JArr (ev2 :: ev1 :: old)) = true ->
  orjson_loads (orjson_dumps (JArr (ev1 :: old))) = Ok (JArr (ev1 :: old)) ->
  snd (update_edit_history m t1 ev1) = Ok tt
  /\ snd (update_edit_history (fst (update_edit_history m t1 ev1)) t2 ev2) = Ok tt
  /\ Message.edit_history
       (fst (update_edit_history (fst (update_edit_history m t1 ev1)) t2 ev2))
     = Some (orjson_dumps (JArr (ev2 :: ev1 :: old)))
  /\ Message.last_edit_time
       (fst (update_edit_history (fst (update_edit_history m t1 ev1)) t2 ev2))
     = Some t2
  /\ Message.id
       (fst (update_edit_history (fst (update_edit_history m t1 ev1)) t2 ev2))
     = Message.id m
  /\ Message.subject
       (fst (update_edit_history (fst (update_edit_history m t1 ev1)) t2 ev2))
     = Message.subject m
  /\ Message.recipient_id
       (fst (update_edit_history (fst (update_edit_history m t1 ev1)) t2 ev2))
     = Message.recipient_id m.
Proof.
  intros Hold Henc1 Henc2 Hread.
  assert (H1 : update_edit_history m t1 ev1
               = (set_edit_history (set_last_edit_time m t1)
                    (Some (orjson_dumps (JArr (ev1 :: old)))), Ok tt)).
  { unfold update_edit_history, py_history, EditHistoryEvent in *. simpl.
    destruct (Message.edit_history m) as [text|].
    - rewrite Hold. simpl. rewrite Henc1. reflexivity.
    - subst old. simpl. rewrite Henc1. reflexivity. }
  rewrite H1. simpl.
  assert (H2 : update_edit_history
                 (set_edit_history (set_last_edit_time m t1)
                    (Some (orjson_dumps (JArr (ev1 :: old))))) t2 ev2
               = (set_edit_history (set_last_edit_time m t2)
                    (Some (orjson_dumps (JArr (ev2 :: ev1 :: old)))), Ok tt)).
  { unfold update_edit_history, EditHistoryEvent in *. simpl.
    rewrite Hread. simpl. rewrite Henc2. reflexivity. }
  rewrite H2. simpl. repeat split.
Qed.

(** X28.  When [orjson] cannot encode the new history, as for an event
    with an integer beyond 64 bits, [update_edit_history] raises
    [TypeError] and stores nothing: the message keeps the history it had,
    while its [last_edit_time] has been overwritten. *)
Theorem update_edit_history_unencodable (m : Message.t) (t : Z)
    (ev : EditHistoryEvent) (old : list json) :
  py_history m old ->
  orjson_encodes (JArr (ev :: old)) = false ->
  snd (update_edit_history m t ev) = Raise TypeError
  /\ Message.edit_history (fst (update_edit_history m t ev)) = Message.edit_history m
  /\ Message.last_edit_time (fst (update_edit_history m t ev)) = Some t.
Proof.
  intros Hold Henc.
  assert (Hrun : update_edit_history m t ev
                 = (set_last_edit_time m t, Raise TypeError)).
  { unfold update_edit_history, py_history, EditHistoryEvent in *. simpl.
    destruct (Message.edit_history m) as [text|].
    - rewrite Hold. simpl. rewrite Henc. reflexivity.
    - subst old. simpl. rewrite Henc. reflexivity. }
  rewrite Hrun. simpl. repeat split.
Qed.

(** X9.  On a stored history that is JSON but not an array the two ways
    of recording an edit differ: [update_edit_history] raises
    [AttributeError], while the expression of the bulk update puts the
    stored value, as it is, behind the new event in a two-element array. *)
Theorem bulk_update_wraps_non_array (m : Message.t) (t : Z) (ev : EditHistoryEvent)
    (text : string) (v : json) :
  Message.edit_history m = Some text ->
  orjson_loads text = Ok v ->
  jsonb_in text = Some v ->
  (forall items, v <> JArr items) ->
  jsonb_in (orjson_dumps (JArr [ev])) = Some (JArr [ev]) ->
  snd (update_edit_history m t ev) = Raise AttributeError
  /\ eval m (edit_history_expr ev) = Ok (SqlText (jsonb_out (JArr [ev; v]))).
Proof.
  intros Hm Hpy Hdb Hnot Hev. split.
  - unfold update_edit_history. simpl. rewrite Hm, Hpy. simpl.
    destruct v; try reflexivity. exfalso. exact (Hnot items eq_refl).
  - unfold edit_history_expr. simpl. unfold column_value. simpl.
    rewrite Hev, Hm. simpl. rewrite Hdb. simpl.
    destruct v; try reflexivity. exfalso. exact (Hnot items eq_refl).
Qed.

(** ** Further properties: the topic move *)

Lemma mode_messages_exact (edited_message : Message.t) (req : StreamMessageEditRequest)
    (rid : Z) (m : Message.t) :
  propagate_mode_messages edited_message req rid m = true
  <-> messages_for_topic (Stream.realm_id (orig_stream req)) rid
        (orig_topic_name req) m = true
      /\ match propagate_mode req with
         | change_one => True
         | change_later => Message.id edited_message < Message.id m
         | change_all => Message.id m <> Message.id edited_message
         end.
Proof.
  unfold propagate_mode_messages, qs_filter, qs_exclude.
  destruct (propagate_mode req); simpl.
  - split; [intros H; split; [exact H | exact I] | intros [H _]; exact H].
  - rewrite andb_true_iff, Z.gtb_lt. reflexivity.
  - rewrite andb_true_iff, negb_true_iff, Z.eqb_neq. reflexivity.
Qed.


(** The candidates are messages of the original conversation and topic. *)
Lemma candidates_in_topic (table : list Message.t) (acting_user : UserProfile.t)
    (edited_message : Message.t) (req : StreamMessageEditRequest)
    (ev : EditHistoryEvent) (t rid : Z) (te : TopicEdit) (m : Message.t) :
  access_check_restricts ->
  Stream.recipient_id (orig_stream req) = Some rid ->
  update_messages_for_topic_edit table acting_user edited_message req ev t = Ok te ->
  messages te m = true ->
  propagate_mode_messages edited_message req rid m = true.
Proof.
  intros Hacc Hrid Hte.
  destruct (topic_edit_returns table acting_user edited_message req ev t rid Hrid)
    as (te' & Hte' & Hq & _).
  rewrite Hte in Hte'. injection Hte' as <-.
  rewrite Hq. destruct (is_stream_edited req); [apply Hacc | auto].
Qed.

(** The deferred update returns when the database reads the event and
    the stored histories, and the target stream has a recipient. *)
Lemma propagate_returns (table table' : list Message.t) (acting_user : UserProfile.t)
    (edited_message : Message.t) (req : StreamMessageEditRequest)
    (ev : EditHistoryEvent) (t rid : Z) :
  Stream.recipient_id (orig_stream req) = Some rid ->
  db_reads_event ev ->
  target_recipient_known req ->
  (forall m, m ∈ table' -> exists old, db_history m old) ->
  exists te updated,
    update_messages_for_topic_edit table acting_user edited_message req ev t = Ok te
    /\ propagate te table' = Ok (updated, qs_rows (id_in (message_ids te)) updated)
    /\ Forall2 (fun m m' => if messages te m then edited_row req ev t m m' else m' = m)
         table' updated.
Proof.
  intros Hrid Hev Htarget Hhist.
  destruct (topic_edit_returns table acting_user edited_message req ev t rid Hrid)
    as (te & Hte & _ & _ & Hprop).
  destruct (qs_update_edited (messages te) req ev t table' Hev Htarget
              (fun m Hm _ => Hhist m Hm)) as (updated & Hupd & HF).
  exists te, updated. split; [exact Hte|]. split; [|exact HF].
  rewrite Hprop, Hupd. reflexivity.
Qed.

(** X11.  The deferred update creates and deletes no row and changes no
    id: the table after it has the rows of the table before, in their
    order, each with its id, realm, sender and channel flag.  A row keeps
    its topic unless the topic is edited, its recipient unless the stream
    is edited, and everything when it is not in the query set.  The rows
    fetched afterwards are rows of the updated table. *)
Theorem propagate_keeps_table_shape (table table' : list Message.t)
    (acting_user : UserProfile.t) (edited_message : Message.t)
    (req : StreamMessageEditRequest) (ev : EditHistoryEvent) (t rid : Z) :
  Stream.recipient_id (orig_stream req) = Some rid ->
  db_reads_event ev ->
  target_recipient_known req ->
  (forall m, m ∈ table' -> exists old, db_history m old) ->
  exists te updated refetched,
    update_messages_for_topic_edit table acting_user edited_message req ev t = Ok te
    /\ propagate te table' = Ok (updated, refetched)
    /\ map Message.id updated = map Message.id table'
    /\ Forall2
         (fun m m' =>
            Message.realm_id m' = Message.realm_id m
            /\ Message.sender_id m' = Message.sender_id m
            /\ Message.is_channel_message m' = Message.is_channel_message m
            /\ (is_topic_edited req = false -> Message.subject m' = Message.subject m)
            /\ (is_stream_edited req = false ->
                Message.recipient_id m' = Message.recipient_id m)
            /\ (messages te m = false -> m' = m))
         table' updated
    /\ (forall r, r ∈ refetched -> r ∈ updated).
Proof.
  intros Hrid Hev Htarget Hhist.
  destruct (propagate_returns table table' acting_user edited_message req ev t rid
              Hrid Hev Htarget Hhist) as (te & updated & Hte & Hrun & HF).
  exists te, updated, (qs_rows (id_in (message_ids te)) updated).
  split; [exact Hte|]. split; [exact Hrun|]. split; [|split].
  - clear Hrun Hhist. induction HF as [|m m' l l' Hm HF IH]; simpl; [reflexivity|].
    f_equal; [|exact IH].
    destruct (messages te m); [apply (edited_row_id req ev t), Hm | subst; reflexivity].
  - eapply Forall2_impl; [exact HF|]. simpl. intros m m' Hm.
    destruct (messages te m).
    + destruct Hm as (_ & Hr & Hc & Hs & _ & _ & Hsub & Hrec).
      repeat split; auto; try discriminate.
      * intros E. rewrite E in Hsub. exact Hsub.
      * intros E. rewrite E in Hrec. exact Hrec.
    + subst m'. repeat split; reflexivity.
  - intros r Hr. apply list_elem_of_In, filter_In in Hr as [Hr _].
    apply list_elem_of_In, Hr.
Qed.

Lemma messages_for_topic_fields (realm_id rid : Z) (topic_name : string)
    (m m' : Message.t) :
  Message.realm_id m' = Message.realm_id m ->
  Message.recipient_id m' = Message.recipient_id m ->
  Message.is_channel_message m' = Message.is_channel_message m ->
  UPPER (Message.subject m') = UPPER (Message.subject m) ->
  messages_for_topic realm_id rid topic_name m'
  = messages_for_topic realm_id rid topic_name m.
Proof.
  unfold messages_for_topic, iexact. intros -> -> -> ->. reflexivity.
Qed.

(** The rows a move has rewritten are out of the query set. *)
Lemma moved_rows_leave_query_set (table table' updated : list Message.t)
    (acting_user : UserProfile.t) (edited_message : Message.t)
    (req : StreamMessageEditRequest) (ev : EditHistoryEvent) (t rid : Z)
    (te : TopicEdit) :
  access_check_restricts ->
  Stream.recipient_id (orig_stream req) = Some rid ->
  update_messages_for_topic_edit table acting_user edited_message req ev t = Ok te ->
  (is_topic_edited req = true
   /\ UPPER (target_topic_name req) <> UPPER (orig_topic_name req))
  \/ (is_stream_edited req = true
      /\ Stream.recipient_id (target_stream req) <> Some rid) ->
  Forall2 (fun m m' => if messages te m then edited_row req ev t m m' else m' = m)
    table' updated ->
  qs_rows (messages te) updated = [].
Proof.
  intros Hacc Hrid Hte Hmoved HF.
  assert (Hin : forall m', messages te m' = true ->
                  messages_for_topic (Stream.realm_id (orig_stream req)) rid
                    (orig_topic_name req) m' = true).
  { intros m' Hm'.
    apply (mode_messages_exact edited_message req rid m').
    apply (candidates_in_topic table acting_user edited_message req ev t rid te m');
      assumption. }
  unfold qs_rows.
  induction HF as [|m m' l l' Hm HF IH]; simpl; [reflexivity|].
  rewrite IH.
  destruct (messages te m') eqn:Em'; [|reflexivity].
  exfalso. specialize (Hin m' Em').
  destruct (messages te m) eqn:Em.
  - destruct Hm as (_ & _ & _ & _ & _ & _ & Hsub & Hrec).
    unfold messages_for_topic, iexact in Hin.
    repeat (apply andb_true_iff in Hin as [Hin ?]).
    destruct Hmoved as [[Ht Hne] | [Hs Hne]].
    + rewrite Ht in Hsub. rewrite Hsub in *.
      apply Hne. apply String.eqb_eq. assumption.
    + rewrite Hs in Hrec. apply Hne. rewrite Hrec. f_equal.
      apply Z.eqb_eq. assumption.
  - subst m'. congruence.
Qed.

(** X12.  After the update of a move to another topic, one whose name
    differs from the original by more than case, or to a stream with
    another recipient, the query set of the candidates matches no row any
    more: this is why the ids are captured before the update. *)
Theorem query_set_is_empty_after_move (table table' : list Message.t)
    (acting_user : UserProfile.t) (edited_message : Message.t)
    (req : StreamMessageEditRequest) (ev : EditHistoryEvent) (t rid : Z) :
  access_check_restricts ->
  Stream.recipient_id (orig_stream req) = Some rid ->
  db_reads_event ev ->
  target_recipient_known req ->
  (forall m, m ∈ table' -> exists old, db_history m old) ->
  (is_topic_edited req = true
   /\ UPPER (target_topic_name req) <> UPPER (orig_topic_name req))
  \/ (is_stream_edited req = true
      /\ Stream.recipient_id (target_stream req) <> Some rid) ->
  exists te updated refetched,
    update_messages_for_topic_edit table acting_user edited_message req ev t = Ok te
    /\ propagate te table' = Ok (updated, refetched)
    /\ qs_rows (messages te) updated = [].
Proof.
  intros Hacc Hrid Hev Htarget Hhist Hmoved.
  destruct (propagate_returns table table' acting_user edited_message req ev t rid
              Hrid Hev Htarget Hhist) as (te & updated & Hte & Hrun & HF).
  exists te, updated, (qs_rows (id_in (message_ids te)) updated).
  split; [exact Hte|]. split; [exact Hrun|].
  apply (moved_rows_leave_query_set table table' updated acting_user edited_message
           req ev t rid te); assumption.
Qed.

(** X13.  A rename that changes nothing but the case of the topic leaves
    the rows in the query set: after the update it selects the rows with
    the same ids as before, so that the query set is not empty when there
    were candidates. *)
Theorem case_only_rename_still_matches (table table' : list Message.t)
    (acting_user : UserProfile.t) (edited_message : Message.t)
    (req : StreamMessageEditRequest) (ev : EditHistoryEvent) (t rid : Z) :
  Stream.recipient_id (orig_stream req) = Some rid ->
  db_reads_event ev ->
  (forall m, m ∈ table' -> exists old, db_history m old) ->
  is_stream_edited req = false ->
  UPPER (target_topic_name req) = UPPER (orig_topic_name req) ->
  exists te updated refetched,
    update_messages_for_topic_edit table acting_user edited_message req ev t = Ok te
    /\ propagate te table' = Ok (updated, refetched)
    /\ map Message.id (qs_rows (messages te) updated)
       = map Message.id (qs_rows (messages te) table').
Proof.
  intros Hrid Hev Hhist Hstream Hcase.
  assert (Htarget : target_recipient_known req).
  { intros H. rewrite Hstream in H. discriminate. }
  destruct (propagate_returns table table' acting_user edited_message req ev t rid
              Hrid Hev Htarget Hhist) as (te & updated & Hte & Hrun & HF).
  exists te, updated, (qs_rows (id_in (message_ids te)) updated).
  split; [exact Hte|]. split; [exact Hrun|].
  destruct (topic_edit_returns table acting_user edited_message req ev t rid Hrid)
    as (te' & Hte' & Hq & _).
  rewrite Hte in Hte'. injection Hte' as <-. rewrite Hstream in Hq.
  clear Hrun Hhist. unfold qs_rows.
  induction HF as [|m m' l l' Hm HF IH]; simpl; [reflexivity|].
  destruct (messages te m) eqn:Em.
  - destruct Hm as (Hid & Hr & Hc & _ & _ & _ & Hsub & Hrec).
    rewrite Hstream in Hrec.
    assert (Em' : messages te m' = true).
    { rewrite Hq in *. apply mode_messages_exact in Em as [Etopic Emode].
      apply mode_messages_exact. rewrite Hid. split; [|exact Emode].
      rewrite <- Etopic. apply messages_for_topic_fields; auto.
      unfold messages_for_topic, iexact in Etopic.
      repeat (apply andb_true_iff in Etopic as [Etopic ?]).
      rewrite Hsub. destruct (is_topic_edited req); [|reflexivity].
      rewrite Hcase. symmetry. apply String.eqb_eq. assumption. }
    rewrite Em'. simpl. rewrite Hid, IH. reflexivity.
  - subst m'. rewrite Em. exact IH.
Qed.






(** What the captured ids select in the updated table: the rewritten
    candidates and the row of the edited message. *)
Lemma captured_ids_select (q : QuerySet Message.t) (eid : Z)
    (table table' : list Message.t) :
  NoDup (map Message.id table') ->
  qs_rows q table' = qs_rows q table ->
  (forall m, q m = true -> Message.id m <> eid) ->
  Forall (fun m =>
            (q m = true ->
             Message.id m <> eid
             /\ id_in (eid :: map Message.id (qs_rows q table)) m = true)
            /\ (q m = false ->
                id_in (eid :: map Message.id (qs_rows q table)) m
                = (Message.id m =? eid)))
    table'.
Proof.
  intros Hnodup Hsame Hne. rewrite Forall_forall. intros m Hm.
  assert (Hcand : forall c, c ∈ qs_rows q table <-> c ∈ table' /\ q c = true).
  { intros c. rewrite <- Hsame. unfold qs_rows.
    rewrite !list_elem_of_In, filter_In. reflexivity. }
  split.
  - intros Hqm. split; [apply Hne, Hqm|].
    apply id_in_elem. apply list_elem_of_further.
    apply (list_elem_of_fmap_2 Message.id). apply Hcand. auto.
  - intros Hqm. unfold id_in. simpl.
    destruct (existsb (Z.eqb (Message.id m)) (map Message.id (qs_rows q table))) eqn:E;
      [|apply orb_false_r].
    exfalso.
    change (id_in (map Message.id (qs_rows q table)) m = true) in E.
    apply id_in_elem in E.
    apply list_elem_of_fmap in E as (c & Hc & Hcin).
    apply Hcand in Hcin as [Hcin Hqc].
    assert (m = c) by (apply (NoDup_map_eq Message.id table'); assumption).
    subst c. congruence.
Qed.


(** X16.  With [change_later] as with [change_all], and for a move to
    another stream as for a rename, the re-fetch by the captured ids gives
    every candidate row exactly once, rewritten by the update, together
    with the row stored under the edited message's id, as it is stored. *)
Theorem refetch_after_move (table table' : list Message.t)
    (acting_user : UserProfile.t) (edited_message : Message.t)
    (req : StreamMessageEditRequest) (ev : EditHistoryEvent) (t rid : Z) :
  access_check_restricts ->
  Stream.recipient_id (orig_stream req) = Some rid ->
  propagate_mode req <> change_one ->
  db_reads_event ev ->
  target_recipient_known req ->
  NoDup (map Message.id table') ->
  (forall m, m ∈ table' -> exists old, db_history m old) ->
  exists te updated refetched,
    update_messages_for_topic_edit table acting_user edited_message req ev t = Ok te
    /\ propagate te table' = Ok (updated, refetched)
    /\ (qs_rows (messages te) table' = qs_rows (messages te) table ->
        Forall2 (edited_row req ev t) (qs_rows (messages te) table)
          (List.filter (fun r => negb (Message.id r =? Message.id edited_message))
             refetched)
        /\ List.filter (fun r => Message.id r =? Message.id edited_message) refetched
           = List.filter (fun r => Message.id r =? Message.id edited_message) table').
Proof.
  intros Hacc Hrid Hmode Hev Htarget Hnodup Hhist.
  destruct (propagate_returns table table' acting_user edited_message req ev t rid
              Hrid Hev Htarget Hhist) as (te & updated & Hte & Hrun & HF).
  exists te, updated, (qs_rows (id_in (message_ids te)) updated).
  split; [exact Hte|]. split; [exact Hrun|].
  intros Hsame.
  destruct (topic_edit_returns table acting_user edited_message req ev t rid Hrid)
    as (te' & Hte' & _ & Hids & _).
  rewrite Hte in Hte'. injection Hte' as <-.
  destruct (refetch_split (edited_row req ev t) (messages te)
              (Message.id edited_message) (message_ids te) table' updated)
    as [H1 H2]; [apply edited_row_id | | exact HF |].
  - rewrite Hids. apply captured_ids_select; auto.
    intros m Hqm.
    apply (candidates_in_topic table acting_user edited_message req ev t rid te m
             Hacc Hrid Hte) in Hqm.
    apply mode_messages_exact in Hqm as [_ Hqm].
    destruct (propagate_mode req); [contradiction | lia | exact Hqm].
  - rewrite Hsame in H1. split; [exact H1 | exact H2].
Qed.

(** ** Further properties: the topic queries *)

Lemma qs_last_from {A : Type} (pk : A -> Z) (rows : list A) (b : A) :
  exists r,
    fold_left
      (fun best row =>
         match best with
         | None => Some row
         | Some b => if pk b <? pk row then Some row else Some b
         end)
      rows (Some b) = Some r
    /\ (r = b \/ r ∈ rows)
    /\ pk b <= pk r
    /\ (forall r', r' ∈ rows -> pk r' <= pk r).
Proof.
  revert b. induction rows as [|a rows IH]; intros b; simpl.
  - exists b. repeat split; [left; reflexivity | lia |].
    intros r' Hr'. apply elem_of_nil in Hr'. contradiction.
  - destruct (pk b <? pk a) eqn:E.
    + apply Z.ltb_lt in E. destruct (IH a) as (r & Hr & Hin & Hle & Hmax).
      exists r. split; [exact Hr|]. split; [|split; [lia|]].
      * right. destruct Hin as [-> | Hin];
          [apply list_elem_of_here | apply list_elem_of_further, Hin].
      * intros r' Hr'. apply elem_of_cons in Hr' as [-> | Hr']; [exact Hle | auto].
    + apply Z.ltb_ge in E. destruct (IH b) as (r & Hr & Hin & Hle & Hmax).
      exists r. split; [exact Hr|]. split; [|split; [exact Hle|]].
      * destruct Hin as [-> | Hin]; [left; reflexivity | right].
        apply list_elem_of_further, Hin.
      * intros r' Hr'. apply elem_of_cons in Hr' as [-> | Hr']; [lia | auto].
Qed.

(** [.last()] gives no row for no rows, and else a row with the greatest
    primary key. *)
Lemma qs_last_greatest {A : Type} (pk : A -> Z) (rows : list A) :
  match qs_last pk rows with
  | None => rows = []
  | Some r => r ∈ rows /\ forall r', r' ∈ rows -> pk r' <= pk r
  end.
Proof.
  unfold qs_last. destruct rows as [|a rows]; simpl; [reflexivity|].
  destruct (qs_last_from pk rows a) as (r & -> & Hin & Hle & Hmax).
  split.
  - destruct Hin as [-> | Hin];
      [apply list_elem_of_here | apply list_elem_of_further, Hin].
  - intros r' Hr'. apply elem_of_cons in Hr' as [-> | Hr']; [exact Hle | auto].
Qed.

Lemma qs_rows_elem {A : Type} (q : QuerySet A) (table : list A) (a : A) :
  a ∈ qs_rows q table <-> a ∈ table /\ q a = true.
Proof. unfold qs_rows. rewrite !list_elem_of_In, filter_In. reflexivity. Qed.

(** X17.  For a history that is public to subscribers the lookup gives
    the greatest id of the channel messages of the conversation under the
    topic, compared without case, and [None] when there is no such message;
    the user profile plays no part. *)
Theorem latest_message_of_public_topic (db : Database) (realm_id : Z)
    (user_profile : option UserProfile.t) (recipient_id : Z) (topic_name : string) :
  exists res,
    get_latest_message_for_user_in_topic db realm_id user_profile recipient_id
      topic_name true (Some true) = Ok res
    /\ match res with
       | None =>
           forall m, m ∈ zerver_message db ->
                     messages_for_topic realm_id recipient_id topic_name m = false
       | Some i =>
           (exists m, m ∈ zerver_message db
                      /\ messages_for_topic realm_id recipient_id topic_name m = true
                      /\ Message.id m = i)
           /\ forall m, m ∈ zerver_message db ->
                        messages_for_topic realm_id recipient_id topic_name m = true ->
                        Message.id m <= i
       end.
Proof.
  unfold get_latest_message_for_user_in_topic. simpl.
  eexists. split; [reflexivity|].
  pose proof (qs_last_greatest Message.id
                (qs_rows (messages_for_topic realm_id recipient_id topic_name)
                   (zerver_message db))) as H.
  destruct (qs_last Message.id
              (qs_rows (messages_for_topic realm_id recipient_id topic_name)
                 (zerver_message db))) as [r|]; simpl.
  - destruct H as [Hr Hmax]. apply qs_rows_elem in Hr as [Hr Hq]. split.
    + exists r. auto.
    + intros m Hm Hqm. apply Hmax. apply qs_rows_elem. auto.
  - intros m Hm.
    destruct (messages_for_topic realm_id recipient_id topic_name m) eqn:E;
      [|reflexivity].
    assert (Hin : m ∈ qs_rows (messages_for_topic realm_id recipient_id topic_name)
                        (zerver_message db)) by (apply qs_rows_elem; auto).
    rewrite H in Hin. apply elem_of_nil in Hin. contradiction.
Qed.

(** X18.  For a history that is not public the lookup for a user gives the
    message of the user's delivery record in the topic with the greatest
    record id, and [None] when the user has no delivery record there.
    That message has the greatest message id among them whenever the
    delivery records are numbered in the order of their messages. *)
Theorem latest_message_of_user_in_topic (db : Database) (realm_id : Z)
    (user_profile : UserProfile.t) (recipient_id : Z) (topic_name : string) :
  exists res,
    get_latest_message_for_user_in_topic db realm_id (Some user_profile) recipient_id
      topic_name false (Some true) = Ok res
    /\ match res with
       | None =>
           forall um, um ∈ zerver_usermessage db ->
                      user_messages_for_topic db user_profile recipient_id topic_name um
                      = false
       | Some i =>
           exists um,
             um ∈ zerver_usermessage db
             /\ user_messages_for_topic db user_profile recipient_id topic_name um = true
             /\ UserMessage.message_id um = i
             /\ (forall um', um' ∈ zerver_usermessage db ->
                   user_messages_for_topic db user_profile recipient_id topic_name um'
                   = true ->
                   UserMessage.id um' <= UserMessage.id um)
             /\ ((forall a b, a ∈ zerver_usermessage db -> b ∈ zerver_usermessage db ->
                              UserMessage.id a <= UserMessage.id b ->
                              UserMessage.message_id a <= UserMessage.message_id b) ->
                 forall um', um' ∈ zerver_usermessage db ->
                   user_messages_for_topic db user_profile recipient_id topic_name um'
                   = true ->
                   UserMessage.message_id um' <= i)
       end.
Proof.
  unfold get_latest_message_for_user_in_topic. simpl.
  eexists. split; [reflexivity|].
  pose proof (qs_last_greatest UserMessage.id
                (qs_rows (user_messages_for_topic db user_profile recipient_id
                            topic_name)
                   (zerver_usermessage db))) as H.
  destruct (qs_last UserMessage.id
              (qs_rows (user_messages_for_topic db user_profile recipient_id
                          topic_name)
                 (zerver_usermessage db))) as [r|]; simpl.
  - destruct H as [Hr Hmax]. apply qs_rows_elem in Hr as [Hr Hq].
    exists r. split; [exact Hr|]. split; [exact Hq|]. split; [reflexivity|].
    assert (Hgreatest : forall um', um' ∈ zerver_usermessage db ->
              user_messages_for_topic db user_profile recipient_id topic_name um'
              = true -> UserMessage.id um' <= UserMessage.id r).
    { intros um' Hum' Hq'. apply Hmax. apply qs_rows_elem. auto. }
    split; [exact Hgreatest|].
    intros Hmono um' Hum' Hq'. apply Hmono; auto.
  - intros um Hum.
    destruct (user_messages_for_topic db user_profile recipient_id topic_name um)
      eqn:E; [|reflexivity].
    assert (Hin : um ∈ qs_rows (user_messages_for_topic db user_profile recipient_id
                                  topic_name)
                         (zerver_usermessage db)) by (apply qs_rows_elem; auto).
    rewrite H in Hin. apply elem_of_nil in Hin. contradiction.
Qed.

(** X19.  A topic exists for a user, as [user_message_exists_for_topic]
    says, exactly when the lookup of the latest message of the user in the
    topic of a history that is not public gives a message. *)
Theorem topic_exists_iff_latest_message (db : Database) (realm_id : Z)
    (user_profile : UserProfile.t) (recipient_id : Z) (topic_name : string) :
  user_message_exists_for_topic db user_profile recipient_id topic_name = true
  <-> exists i,
        get_latest_message_for_user_in_topic db realm_id (Some user_profile)
          recipient_id topic_name false (Some true) = Ok (Some i).
Proof.
  unfold user_message_exists_for_topic, get_latest_message_for_user_in_topic. simpl.
  pose proof (qs_last_greatest UserMessage.id
                (qs_rows (user_messages_for_topic db user_profile recipient_id
                            topic_name)
                   (zerver_usermessage db))) as H.
  destruct (qs_last UserMessage.id
              (qs_rows (user_messages_for_topic db user_profile recipient_id
                          topic_name)
                 (zerver_usermessage db))) as [r|]; simpl.
  - destruct H as [Hr _].
    destruct (qs_rows (user_messages_for_topic db user_profile recipient_id
                         topic_name) (zerver_usermessage db)) as [|x l].
    + apply elem_of_nil in Hr. contradiction.
    + simpl. split; [eauto | reflexivity].
  - rewrite H. simpl. split; [discriminate | intros [i Hi]; discriminate].
Qed.

(** X20.  The topic lookups compare topic names without case: two names
    with the same upper-case form select the same messages, give the same
    latest message, exist for the same users and have the same
    participants. *)
Theorem topic_lookups_ignore_case (db : Database) (reaction_table : list Reaction.t)
    (userprofile_table : list UserProfile.t) (realm_id : Z)
    (user_profile : option UserProfile.t) (user : UserProfile.t) (recipient_id : Z)
    (topic_name topic_name' : string) (history_public_to_subscribers : bool)
    (acting_user_has_channel_content_access : option bool) :
  UPPER topic_name = UPPER topic_name' ->
  (forall m, messages_for_topic realm_id recipient_id topic_name m
             = messages_for_topic realm_id recipient_id topic_name' m)
  /\ get_latest_message_for_user_in_topic db realm_id user_profile recipient_id
       topic_name history_public_to_subscribers acting_user_has_channel_content_access
     = get_latest_message_for_user_in_topic db realm_id user_profile recipient_id
         topic_name' history_public_to_subscribers
         acting_user_has_channel_content_access
  /\ user_message_exists_for_topic db user recipient_id topic_name
     = user_message_exists_for_topic db user recipient_id topic_name'
  /\ participants_for_topic (zerver_message db) reaction_table userprofile_table
       realm_id recipient_id topic_name
     = participants_for_topic (zerver_message db) reaction_table userprofile_table
         realm_id recipient_id topic_name'.
Proof.
  intros H.
  unfold get_latest_message_for_user_in_topic, user_message_exists_for_topic,
    participants_for_topic, user_messages_for_topic, messages_for_topic, iexact.
  rewrite H. repeat split.
Qed.

(** ** Further properties: the topic history of a stream *)

Lemma get_Some_elem {V : Type} (d : Py.dict V) (k : string) (v : V) :
  Py.get d k = Some v -> (k, v) ∈ d.
Proof.
  induction d as [|[k0 v0] d IH]; simpl; [discriminate|].
  destruct (String.eqb k k0) eqn:E.
  - apply String.eqb_eq in E. subst k0. intros [= ->]. apply list_elem_of_here.
  - intros H. apply list_elem_of_further, IH, H.
Qed.

(** What the grouping has for each topic after the rows [seen]: the
    greatest id met under that topic, and nothing for a topic not met. *)
Lemma group_max_step (seen : list (string * Z)) (d : Py.dict Z) (topic : string)
    (id : Z) :
  (forall s, match Py.get d s with
             | Some i => (s, i) ∈ seen /\ forall j, (s, j) ∈ seen -> j <= i
             | None => forall j, (s, j) ∉ seen
             end) ->
  forall s,
    match Py.get
            (match Py.get d topic with
             | Some best => Py.setitem d topic (Z.max best id)
             | None => Py.setitem d topic id
             end) s with
    | Some i => (s, i) ∈ seen ++ [(topic, id)]
                /\ forall j, (s, j) ∈ seen ++ [(topic, id)] -> j <= i
    | None => forall j, (s, j) ∉ seen ++ [(topic, id)]
    end.
Proof.
  intros Hinv s.
  assert (Hget : Py.get
                   (match Py.get d topic with
                    | Some best => Py.setitem d topic (Z.max best id)
                    | None => Py.setitem d topic id
                    end) s
                 = if String.eqb s topic
                   then Some (match Py.get d topic with
                              | Some best => Z.max best id
                              | None => id
                              end)
                   else Py.get d s).
  { destruct (Py.get d topic); rewrite get_setitem; reflexivity. }
  rewrite Hget. clear Hget.
  destruct (String.eqb s topic) eqn:E.
  - apply String.eqb_eq in E. subst s. specialize (Hinv topic).
    destruct (Py.get d topic) as [best|].
    + destruct Hinv as [Hin Hmax]. split.
      * rewrite elem_of_app.
        destruct (Z.max_spec best id) as [[_ ->] | [_ ->]];
          [right; apply list_elem_of_here | left; exact Hin].
      * intros j Hj. apply elem_of_app in Hj as [Hj | Hj].
        -- specialize (Hmax j Hj). lia.
        -- apply list_elem_of_singleton in Hj. injection Hj as ->. lia.
    + split.
      * rewrite elem_of_app. right. apply list_elem_of_here.
      * intros j Hj. apply elem_of_app in Hj as [Hj | Hj].
        -- exfalso. exact (Hinv j Hj).
        -- apply list_elem_of_singleton in Hj. injection Hj as ->. lia.
  - apply String.eqb_neq in E. specialize (Hinv s).
    assert (Hother : forall j, (s, j) ∈ seen ++ [(topic, id)] -> (s, j) ∈ seen).
    { intros j Hj. apply elem_of_app in Hj as [Hj | Hj]; [exact Hj|].
      apply list_elem_of_singleton in Hj. injection Hj as Hs _. contradiction. }
    destruct (Py.get d s) as [i|].
    + destruct Hinv as [Hin Hmax]. split.
      * rewrite elem_of_app. left. exact Hin.
      * intros j Hj. apply Hmax, Hother, Hj.
    + intros j Hj. exact (Hinv j (Hother j Hj)).
Qed.

Lemma group_max_fold (selected seen : list (string * Z)) (d : Py.dict Z) :
  (forall s, match Py.get d s with
             | Some i => (s, i) ∈ seen /\ forall j, (s, j) ∈ seen -> j <= i
             | None => forall j, (s, j) ∉ seen
             end) ->
  forall s,
    match Py.get
            (fold_left
               (fun d row =>
                  let '(topic, id) := row in
                  match Py.get d topic with
                  | Some best => Py.setitem d topic (Z.max best id)
                  | None => Py.setitem d topic id
                  end)
               selected d) s with
    | Some i => (s, i) ∈ seen ++ selected
                /\ forall j, (s, j) ∈ seen ++ selected -> j <= i
    | None => forall j, (s, j) ∉ seen ++ selected
    end.
Proof.
  revert seen d. induction selected as [|[topic id] selected IH]; intros seen d Hinv s.
  - simpl. rewrite app_nil_r. apply Hinv.
  - simpl.
    replace (seen ++ (topic, id) :: selected)
      with ((seen ++ [(topic, id)]) ++ selected)
      by (rewrite <- app_assoc; reflexivity).
    apply IH. apply group_max_step, Hinv.
Qed.

Lemma group_max_NoDup (selected : list (string * Z)) :
  NoDup (map fst (group_max selected)).
Proof.
  unfold group_max.
  assert (H : forall d : Py.dict Z, NoDup (map fst d) ->
            NoDup (map fst
                     (fold_left
                        (fun d row =>
                           let '(topic, id) := row in
                           match Py.get d topic with
                           | Some best => Py.setitem d topic (Z.max best id)
                           | None => Py.setitem d topic id
                           end)
                        selected d))).
  { induction selected as [|[topic id] selected IH]; intros d Hd; simpl; [exact Hd|].
    apply IH. destruct (Py.get d topic); apply setitem_NoDup, Hd. }
  apply H. constructor.
Qed.

(** The rows of a grouped query: a row for each topic selected, with the
    greatest id selected under it. *)
Lemma group_max_rows (selected : list (string * Z)) (s : string) (i : Z) :
  (s, i) ∈ order_by_max_desc (group_max selected)
  <-> (s, i) ∈ selected /\ forall j, (s, j) ∈ selected -> j <= i.
Proof.
  unfold order_by_max_desc. rewrite sorted_perm.
  pose proof (group_max_fold selected [] [] (fun s j => not_elem_of_nil (s, j)) s) as H.
  simpl in H. fold (group_max selected) in H.
  split.
  - intros Hin. apply get_elem_of in Hin; [|apply group_max_NoDup].
    rewrite Hin in H. exact H.
  - intros [Hin Hmax].
    destruct (Py.get (group_max selected) s) as [i'|] eqn:E.
    + destruct H as [Hin' Hmax'].
      assert (i = i') by (specialize (Hmax i' Hin'); specialize (Hmax' i Hin); lia).
      subst i'. apply get_Some_elem, E.
    + exfalso. exact (H i Hin).
Qed.

(** The history of grouped rows: each entry is for a selected topic with
    the greatest id selected under any of its case variants, and every
    selected topic is under an entry with an id at least its own. *)
Lemma grouped_history_entry (selected : list (string * Z))
    (allow_empty_topic_name : bool) (e : TopicHistoryEntry) :
  e ∈ generate_topic_history_from_db_rows (order_by_max_desc (group_max selected))
        allow_empty_topic_name ->
  exists s,
    (s, max_id e) ∈ selected
    /\ name e = history_name allow_empty_topic_name s
    /\ forall s' j, (s', j) ∈ selected -> lower s' = lower s -> j <= max_id e.
Proof.
  intros He. rewrite history_perm in He.
  apply list_elem_of_fmap in He as ([mid tn] & -> & Hv). simpl.
  apply list_elem_of_fmap in Hv as ([k v] & Hkv & Hin). simpl in Hkv. subst v.
  destruct (canonical_entry _ k (mid, tn) Hin) as [_ [Hrow Hmax]]. simpl in *.
  exists tn. apply group_max_rows in Hrow as [Hsel Hsmax].
  split; [exact Hsel|]. split; [reflexivity|].
  intros s' j Hj Hlow.
  pose proof (group_max_fold selected [] [] (fun s j => not_elem_of_nil (s, j)) s')
    as H. simpl in H. fold (group_max selected) in H.
  destruct (Py.get (group_max selected) s') as [i'|] eqn:E.
  - destruct H as [Hin' Hmax'].
    assert (Hrow' : (s', i') ∈ order_by_max_desc (group_max selected))
      by (apply group_max_rows; auto).
    specialize (Hmax (s', i') Hrow' Hlow). simpl in Hmax.
    specialize (Hmax' j Hj). lia.
  - exfalso. exact (H j Hj).
Qed.

Lemma grouped_history_covers (selected : list (string * Z))
    (allow_empty_topic_name : bool) (s : string) (j : Z) :
  (s, j) ∈ selected ->
  exists e tn,
    e ∈ generate_topic_history_from_db_rows (order_by_max_desc (group_max selected))
          allow_empty_topic_name
    /\ j <= max_id e
    /\ lower tn = lower s
    /\ name e = history_name allow_empty_topic_name tn.
Proof.
  intros Hj.
  pose proof (group_max_fold selected [] [] (fun s j => not_elem_of_nil (s, j)) s)
    as H. simpl in H. fold (group_max selected) in H.
  destruct (Py.get (group_max selected) s) as [i'|] eqn:E;
    [|exfalso; exact (H j Hj)].
  destruct H as [Hin' Hmax'].
  assert (Hrow : (s, i') ∈ order_by_max_desc (group_max selected))
    by (apply group_max_rows; auto).
  pose proof (canonical_covers _ _ Hrow) as Hk. simpl in Hk.
  apply list_elem_of_fmap in Hk as ([k [mid tn]] & Hkeq & Hkv). simpl in Hkeq.
  destruct (canonical_entry _ k (mid, tn) Hkv) as [Hk' [_ Hmax]]. simpl in *.
  exists {| name := history_name allow_empty_topic_name tn; max_id := mid |}, tn.
  split; [|split; [|split]].
  - rewrite history_perm.
    apply (list_elem_of_fmap_2'
             (fun v : Z * string =>
                {| name := history_name allow_empty_topic_name (snd v);
                   max_id := fst v |}) _ (mid, tn)); [|reflexivity].
    apply (list_elem_of_fmap_2' snd _ (k, (mid, tn))); [exact Hkv | reflexivity].
  - simpl. specialize (Hmax (s, i') Hrow). simpl in Hmax.
    specialize (Hmax' j Hj).
    assert (Hlow : lower s = lower tn) by congruence.
    specialize (Hmax Hlow). lia.
  - congruence.
  - reflexivity.
Qed.

(** X21.  Every entry of the history of a public stream is for a channel
    message stored in that conversation: the entry has the id of the
    message and its topic as it is written there (the fallback name for the
    empty topic when empty names are not allowed), and no message of the
    conversation whose topic has the same canonical name has a greater id.
    The casing shown is that of the latest message of the topic. *)
Theorem public_history_shows_latest_message (db : Database) (realm_id recipient_id : Z)
    (allow_empty_topic_name : bool) (e : TopicHistoryEntry) :
  e ∈ get_topic_history_for_public_stream db realm_id recipient_id
        allow_empty_topic_name ->
  exists m,
    m ∈ zerver_message db
    /\ in_channel realm_id recipient_id m = true
    /\ Message.id m = max_id e
    /\ name e = history_name allow_empty_topic_name (Message.subject m)
    /\ forall m', m' ∈ zerver_message db ->
                  in_channel realm_id recipient_id m' = true ->
                  lower (Message.subject m') = lower (Message.subject m) ->
                  Message.id m' <= Message.id m.
Proof.
  intros He. unfold get_topic_history_for_public_stream, public_stream_rows in He.
  apply grouped_history_entry in He as (s & Hsel & Hname & Hmax).
  apply list_elem_of_fmap in Hsel as (m & Hm & Hin).
  injection Hm as -> Hid.
  apply list_elem_of_In, filter_In in Hin as [Hin Hch]. apply list_elem_of_In in Hin.
  exists m. repeat split; auto.
  intros m' Hm' Hch' Hlow. rewrite <- Hid.
  apply (Hmax (Message.subject m') (Message.id m')); [|exact Hlow].
  apply (list_elem_of_fmap_2' _ _ m'); [|reflexivity].
  apply list_elem_of_In, filter_In. split; [apply list_elem_of_In, Hm' | exact Hch'].
Qed.

(** X22.  The history of a public stream leaves out no topic: every
    channel message of the conversation is under an entry whose max id is
    at least the id of the message and whose name is that of a case
    variant of the message's topic. *)
Theorem public_history_lists_every_topic (db : Database) (realm_id recipient_id : Z)
    (allow_empty_topic_name : bool) (m : Message.t) :
  m ∈ zerver_message db ->
  in_channel realm_id recipient_id m = true ->
  exists e tn,
    e ∈ get_topic_history_for_public_stream db realm_id recipient_id
          allow_empty_topic_name
    /\ Message.id m <= max_id e
    /\ lower tn = lower (Message.subject m)
    /\ name e = history_name allow_empty_topic_name tn.
Proof.
  intros Hm Hch. unfold get_topic_history_for_public_stream, public_stream_rows.
  apply grouped_history_covers.
  apply (list_elem_of_fmap_2' _ _ m); [|reflexivity].
  apply list_elem_of_In, filter_In. split; [apply list_elem_of_In, Hm | exact Hch].
Qed.

(** X23.  The history of a stream for a user, when the history is not
    public, has entries only for messages the user has a delivery record
    for: each entry has the id and the topic of a channel message of the
    conversation, in the realm of the user, that was delivered to the user. *)
Theorem user_history_shows_delivered_messages (db : Database)
    (user_profile : UserProfile.t) (recipient_id : Z)
    (allow_empty_topic_name : bool) (e : TopicHistoryEntry) :
  e ∈ get_topic_history_for_stream db user_profile recipient_id false
        allow_empty_topic_name ->
  exists m um,
    m ∈ zerver_message db
    /\ um ∈ zerver_usermessage db
    /\ UserMessage.message_id um = Message.id m
    /\ UserMessage.user_profile_id um = UserProfile.id user_profile
    /\ in_channel (UserProfile.realm_id user_profile) recipient_id m = true
    /\ Message.id m = max_id e
    /\ name e = history_name allow_empty_topic_name (Message.subject m).
Proof.
  intros He. unfold get_topic_history_for_stream, user_stream_rows in He.
  apply grouped_history_entry in He as (s & Hsel & Hname & _).
  apply list_elem_of_In, in_flat_map in Hsel as (m & Hm & Hsel).
  apply in_flat_map in Hsel as (um & Hum & Hsel).
  destruct ((UserMessage.message_id um =? Message.id m)
            && (UserMessage.user_profile_id um =? UserProfile.id user_profile)
            && in_channel (UserProfile.realm_id user_profile) recipient_id m) eqn:E;
    [|destruct Hsel].
  destruct Hsel as [Hsel | []]. injection Hsel as Hs Hid. subst s.
  apply andb_true_iff in E as [E Hch]. apply andb_true_iff in E as [E1 E2].
  apply Z.eqb_eq in E1. apply Z.eqb_eq in E2.
  exists m, um. repeat split; auto; apply list_elem_of_In; assumption.
Qed.

(** ** Further properties: participants *)

Lemma existsb_eqb_elem (x : Z) (l : list Z) : existsb (Z.eqb x) l = true <-> x ∈ l.
Proof.
  rewrite existsb_exists. split.
  - intros (y & Hy & E). apply Z.eqb_eq in E. subst y. apply list_elem_of_In, Hy.
  - intros H. exists x. split; [apply list_elem_of_In, H | apply Z.eqb_refl].
Qed.

(** X24.  The participants of a topic are the users with a profile who
    have sent a message of the topic or reacted to one: a reaction to a
    message of another topic, or an id without a profile, adds nobody. *)
Theorem participants_are_senders_and_reactors (message_table : list Message.t)
    (reaction_table : list Reaction.t) (userprofile_table : list UserProfile.t)
    (realm_id recipient_id : Z) (topic_name : string) (u : Z) :
  u ∈ participants_for_topic message_table reaction_table userprofile_table
        realm_id recipient_id topic_name
  <-> (exists p, p ∈ userprofile_table /\ UserProfile.id p = u)
      /\ ((exists m, m ∈ message_table
                     /\ messages_for_topic realm_id recipient_id topic_name m = true
                     /\ Message.sender_id m = u)
          \/ (exists r m, r ∈ reaction_table
                          /\ Reaction.user_profile_id r = u
                          /\ m ∈ message_table
                          /\ messages_for_topic realm_id recipient_id topic_name m = true
                          /\ Reaction.message_id r = Message.id m)).
Proof.
  unfold participants_for_topic. rewrite elem_of_list_to_set.
  assert (Hsender : forall x,
            existsb (Z.eqb x)
              (map Message.sender_id
                 (qs_rows (messages_for_topic realm_id recipient_id topic_name)
                    message_table)) = true
            <-> exists m, m ∈ message_table
                          /\ messages_for_topic realm_id recipient_id topic_name m = true
                          /\ Message.sender_id m = x).
  { intros x. rewrite existsb_eqb_elem. split.
    - intros H. apply list_elem_of_fmap in H as (m & -> & Hm).
      apply qs_rows_elem in Hm as [Hm Hq]. eauto.
    - intros (m & Hm & Hq & <-). apply (list_elem_of_fmap_2 Message.sender_id).
      apply qs_rows_elem. auto. }
  assert (Hreactor : forall x,
            existsb (Z.eqb x)
              (map Reaction.user_profile_id
                 (List.filter
                    (fun r =>
                       existsb (Z.eqb (Reaction.message_id r))
                         (map Message.id
                            (qs_rows
                               (messages_for_topic realm_id recipient_id topic_name)
                               message_table)))
                    reaction_table)) = true
            <-> exists r m, r ∈ reaction_table
                            /\ Reaction.user_profile_id r = x
                            /\ m ∈ message_table
                            /\ messages_for_topic realm_id recipient_id topic_name m
                               = true
                            /\ Reaction.message_id r = Message.id m).
  { intros x. rewrite existsb_eqb_elem. split.
    - intros H. apply list_elem_of_fmap in H as (r & -> & Hr).
      apply list_elem_of_In, filter_In in Hr as [Hr Hin].
      apply existsb_eqb_elem, list_elem_of_fmap in Hin as (m & Hid & Hm).
      apply qs_rows_elem in Hm as [Hm Hq].
      exists r, m. repeat split; auto. apply list_elem_of_In, Hr.
    - intros (r & m & Hr & <- & Hm & Hq & Hid).
      apply (list_elem_of_fmap_2 Reaction.user_profile_id).
      apply list_elem_of_In, filter_In. split; [apply list_elem_of_In, Hr|].
      apply existsb_eqb_elem. rewrite Hid. apply (list_elem_of_fmap_2 Message.id).
      apply qs_rows_elem. auto. }
  split.
  - intros H. apply list_elem_of_fmap in H as (p & -> & Hp).
    apply list_elem_of_In, filter_In in Hp as [Hp Hcond].
    apply list_elem_of_In in Hp. split; [eauto|].
    apply orb_true_iff in Hcond as [Hc | Hc]; [left; apply Hsender, Hc|].
    right. apply Hreactor, Hc.
  - intros [(p & Hp & <-) Hcond].
    apply (list_elem_of_fmap_2 UserProfile.id).
    apply list_elem_of_In, filter_In. split; [apply list_elem_of_In, Hp|].
    apply orb_true_iff.
    destruct Hcond as [Hc | Hc]; [left; apply Hsender, Hc | right; apply Hreactor, Hc].
Qed.

(** ** Further properties: compositions *)

Lemma qs_update_no_match (q : QuerySet Message.t) (fields : UpdateFields)
    (table : list Message.t) :
  qs_rows q table = [] -> qs_update q fields table = Ok table.
Proof.
  unfold qs_rows. induction table as [|row table IH]; simpl; [reflexivity|].
  destruct (q row); [discriminate|].
  intros H. simpl. rewrite (IH H). reflexivity.
Qed.

(** X25.  After a move to another topic or stream, calling the deferred
    operation again changes nothing: its query set matches no row, so the
    table stays as the first call left it and the same rows are fetched;
    no event is recorded twice. *)
Theorem propagate_again_changes_nothing (table table' : list Message.t)
    (acting_user : UserProfile.t) (edited_message : Message.t)
    (req : StreamMessageEditRequest) (ev : EditHistoryEvent) (t rid : Z) :
  access_check_restricts ->
  Stream.recipient_id (orig_stream req) = Some rid ->
  db_reads_event ev ->
  target_recipient_known req ->
  (forall m, m ∈ table' -> exists old, db_history m old) ->
  (is_topic_edited req = true
   /\ UPPER (target_topic_name req) <> UPPER (orig_topic_name req))
  \/ (is_stream_edited req = true
      /\ Stream.recipient_id (target_stream req) <> Some rid) ->
  exists te updated refetched,
    update_messages_for_topic_edit table acting_user edited_message req ev t = Ok te
    /\ propagate te table' = Ok (updated, refetched)
    /\ propagate te updated = Ok (updated, refetched).
Proof.
  intros Hacc Hrid Hev Htarget Hhist Hmoved.
  destruct (propagate_returns table table' acting_user edited_message req ev t rid
              Hrid Hev Htarget Hhist) as (te & updated & Hte & Hrun & HF).
  exists te, updated, (qs_rows (id_in (message_ids te)) updated).
  split; [exact Hte|]. split; [exact Hrun|].
  destruct (topic_edit_returns table acting_user edited_message req ev t rid Hrid)
    as (te' & Hte' & _ & _ & Hprop).
  rewrite Hte in Hte'. injection Hte' as <-.
  rewrite Hprop. rewrite qs_update_no_match; [reflexivity|].
  apply (moved_rows_leave_query_set table table' updated acting_user edited_message
           req ev t rid te); assumption.
Qed.

(** X26.  Of a message dict only the keys ["topic"] and ["subject"] are
    read: setting or removing another key does not change the result, a
    value set under ["topic"] is the result whatever else the dict holds,
    and a value set under ["subject"] is the result once ["topic"] is
    removed. *)
Theorem message_info_reads_two_keys {V : Type} (message_info : gmap string V)
    (k : string) (v : V) :
  get_topic_from_message_info (<["topic" := v]> message_info) = Ok v
  /\ get_topic_from_message_info (delete "topic" (<["subject" := v]> message_info))
     = Ok v
  /\ (k <> "topic" -> k <> "subject" ->
      get_topic_from_message_info (<[k := v]> message_info)
      = get_topic_from_message_info message_info
      /\ get_topic_from_message_info (delete k message_info)
         = get_topic_from_message_info message_info).
Proof.
  unfold get_topic_from_message_info, Py.contains, Py.getitem.
  split; [|split].
  - rewrite lookup_insert_eq.
    rewrite bool_decide_eq_true_2 by eauto. reflexivity.
  - rewrite lookup_delete_eq.
    rewrite bool_decide_eq_false_2 by (intros [x Hx]; discriminate).
    rewrite lookup_delete_ne by discriminate.
    rewrite lookup_insert_eq. reflexivity.
  - intros Ht Hs. split.
    + rewrite !lookup_insert_ne by assumption. reflexivity.
    + rewrite !lookup_delete_ne by assumption. reflexivity.
Qed.

(** X27.  The first entry of the history of rows that are not empty is
    the most recent one: no row has a greater max id than it. *)
Theorem history_starts_with_latest (rows : list (string * Z))
    (allow_empty_topic_name : bool) :
  rows <> [] ->
  exists e rest,
    generate_topic_history_from_db_rows rows allow_empty_topic_name = e :: rest
    /\ forall r, r ∈ rows -> snd r <= max_id e.
Proof.
  intros Hne.
  assert (Hcover : forall r, r ∈ rows ->
            exists e', e' ∈ generate_topic_history_from_db_rows rows
                              allow_empty_topic_name
                       /\ snd r <= max_id e').
  { intros r Hr. pose proof (canonical_covers rows r Hr) as Hk.
    apply list_elem_of_fmap in Hk as ([k [mid tn]] & Hkeq & Hkv). simpl in Hkeq.
    destruct (canonical_entry rows k (mid, tn) Hkv) as [Hk' [_ Hmax]]. simpl in *.
    exists {| name := history_name allow_empty_topic_name tn; max_id := mid |}.
    split.
    - rewrite history_perm.
      apply (list_elem_of_fmap_2'
               (fun v : Z * string =>
                  {| name := history_name allow_empty_topic_name (snd v);
                     max_id := fst v |}) _ (mid, tn)); [|reflexivity].
      apply (list_elem_of_fmap_2' snd _ (k, (mid, tn))); [exact Hkv | reflexivity].
    - simpl. apply Hmax; [exact Hr | congruence]. }
  pose proof (sorted_ascending (fun x : TopicHistoryEntry => - max_id x)
                (map (fun v : Z * string =>
                        let '(max_message_id, topic_name) := v in
                        {| name := history_name allow_empty_topic_name topic_name;
                           max_id := max_message_id |})
                   (Py.values (canonical_topic_names rows)))) as Hsorted.
  fold (generate_topic_history_from_db_rows rows allow_empty_topic_name) in Hsorted.
  destruct (generate_topic_history_from_db_rows rows allow_empty_topic_name)
    as [|e rest] eqn:E.
  - destruct rows as [|r rows]; [contradiction|].
    destruct (Hcover r (list_elem_of_here _ _)) as (e' & He' & _).
    apply elem_of_nil in He'. contradiction.
  - exists e, rest. split; [reflexivity|].
    intros r Hr. destruct (Hcover r Hr) as (e' & He' & Hle).
    apply StronglySorted_inv in Hsorted as [_ Hfirst].
    rewrite Forall_forall in Hfirst.
    apply elem_of_cons in He' as [-> | He']; [exact Hle|].
    specialize (Hfirst e' He'). simpl in Hfirst. lia.
Qed.

End Topic.

(** ** The properties on concrete data *)

(** The topic move on ASCII topics with the JSON codec above. *)
Local Abbreviation topic_edit :=
  (update_messages_for_topic_edit PyStr.ascii_upper JsonText.dumps
     JsonText.jsonb_in JsonText.jsonb_out).

Ltac each_row H :=
  repeat (apply elem_of_cons in H as [-> | H]);
  [.. | apply elem_of_nil in H; contradiction].

Lemma example_histories (m : Message.t) :
  m ∈ Example.table -> exists old, db_history JsonText.jsonb_in m old.
Proof. intros H. each_row H; eexists; vm_compute; reflexivity. Qed.

Lemma example_reads_event :
  db_reads_event JsonText.dumps JsonText.jsonb_in Example.event.
Proof. split; vm_compute; reflexivity. Qed.

Lemma example_ids_NoDup : NoDup (map Message.id Example.table).
Proof. refine (bool_decide_unpack _ _). vm_compute. exact I. Qed.

Lemma resolution_round_trip_witness :
  PyStr.startswith "deploy plan" RESOLVED_TOPIC_PREFIX = false
  /\ get_topic_resolution_and_bare_name (RESOLVED_TOPIC_PREFIX +:+ "deploy plan")
     = (true, "deploy plan")
  /\ get_topic_resolution_and_bare_name "deploy plan" = (false, "deploy plan").
Proof.
  split; [reflexivity|].
  apply (resolution_round_trip "deploy plan"). reflexivity.
Defined.

Lemma topic_from_message_info_lookup_witness :
  get_topic_from_message_info
    (<["topic" := "lunch"]> (<["subject" := "old"]> (∅ : gmap string string)))
  = Ok "lunch"
  /\ get_topic_from_message_info (<["subject" := "old"]> (∅ : gmap string string))
     = Ok "old"
  /\ get_topic_from_message_info (∅ : gmap string string) = Raise (KeyError "subject").
Proof.
  split; [|split].
  - apply (proj1 (topic_from_message_info_lookup _)). vm_compute. reflexivity.
  - apply (proj1 (proj2 (topic_from_message_info_lookup _))); vm_compute; reflexivity.
  - apply (proj2 (proj2 (topic_from_message_info_lookup _))); vm_compute; reflexivity.
Defined.

Lemma topic_history_canonicalization_witness :
  generate_topic_history_from_db_rows PyStr.ascii_lower "general chat"
    [("Bug", 5); ("BUG", 10); ("bug", 3)] false
  = [{| name := "BUG"; max_id := 10 |}].
Proof.
  apply (topic_history_canonicalization PyStr.ascii_lower "general chat" [] false);
    reflexivity.
Defined.

(** C1, as it is stated, fails on the empty topic: with empty names not
    allowed the only entry for the row [("", 7)] is named by the fallback
    name, which is the literal name of no row. *)
Lemma literal_name_fails_on_empty_topic :
  ~ one_entry_per_canonical_name PyStr.ascii_lower
      (fun n i => {| name := n; max_id := i |})
      [("", 7)]
      (generate_topic_history_from_db_rows PyStr.ascii_lower "general chat"
         [("", 7)] false).
Proof.
  intros (winners & _ & _ & Hall & Hperm).
  change (generate_topic_history_from_db_rows PyStr.ascii_lower "general chat"
            [("", 7)] false)
    with [{| name := "general chat"; max_id := 7 |}] in Hperm.
  apply Permutation_singleton_l in Hperm.
  destruct winners as [|w [|w' ws]]; try discriminate.
  injection Hperm as Hname _.
  apply Forall_cons in Hall as [[Hw _] _].
  apply list_elem_of_singleton in Hw. subst w. discriminate.
Qed.

Lemma edit_history_prepend_witness :
  Message.edit_history
    (fst (update_edit_history JsonText.loads JsonText.dumps JsonText.encodes
            Example.m2 1700000000 Example.event))
  = Some (JsonText.dumps (JArr [Example.event; Example.earlier_event]))
  /\ snd (update_edit_history JsonText.loads JsonText.dumps JsonText.encodes
            Example.m2 1700000000 Example.event) = Ok tt
  /\ py_history JsonText.loads
       (fst (update_edit_history JsonText.loads JsonText.dumps JsonText.encodes
               Example.m2 1700000000 Example.event))
       [Example.event; Example.earlier_event]
  /\ eval JsonText.jsonb_in JsonText.jsonb_out Example.m2
       (edit_history_expr JsonText.dumps Example.event)
     = Ok (SqlText (JsonText.jsonb_out (JArr [Example.event; Example.earlier_event]))).
Proof.
  destruct (edit_history_prepend JsonText.loads JsonText.dumps JsonText.jsonb_in
              JsonText.jsonb_out JsonText.encodes Example.m2 1700000000
              Example.event [Example.earlier_event])
    as (Hrun & Hstored & _ & _ & Hread & Hsql & _).
  - vm_compute. reflexivity.
  - vm_compute. reflexivity.
  - split; vm_compute; reflexivity.
  - vm_compute. reflexivity.
  - split; [exact Hstored|]. split; [rewrite Hrun; reflexivity|].
    split; [|exact Hsql].
    apply Hread. vm_compute. reflexivity.
Defined.



Lemma topic_move_refetch_witness :
  exists te updated refetched,
    topic_edit Example.allow_all Example.table Example.user Example.m1
      (Example.request change_all false) Example.event 1700000000 = Ok te
    /\ propagate te Example.table = Ok (updated, refetched)
    /\ length refetched = 3%nat
    /\ (forall r, r ∈ refetched -> Message.id r <> 1 -> Message.subject r = "crash").
Proof.
  destruct (topic_move_refetch PyStr.ascii_upper JsonText.dumps JsonText.jsonb_in
              JsonText.jsonb_out Example.allow_all Example.table Example.table
              Example.user Example.m1 (Example.request change_all false)
              Example.event 1700000000 10)
    as (te & Hte & Hids & Hrefetch); try reflexivity.
  - exact example_reads_event.
  - destruct (Hrefetch example_ids_NoDup eq_refl example_histories)
      as (updated & refetched & Hrun & _ & _ & Hsubject & Hlen).
    exists te, updated, refetched.
    split; [exact Hte|]. split; [exact Hrun|]. split; [|exact Hsubject].
    rewrite Hlen.
    assert (E : topic_edit Example.allow_all Example.table Example.user Example.m1
                  (Example.request change_all false) Example.event 1700000000
                = Ok te) by exact Hte.
    injection E as <-. reflexivity.
Defined.

(** C2, as it is stated, fails: the candidates of the move of topic [bug]
    are the messages 2 and 3, and the re-fetch gives three rows, the row of
    the edited message 1 with them.  That row is still under [bug] when the
    editor has not saved it; when it has been saved under [crash] before,
    every row is under the new topic and the count is still one more. *)
Lemma refetch_counts_edited_message :
  (exists te,
     topic_edit Example.allow_all Example.table Example.user Example.m1
       (Example.request change_all false) Example.event 1700000000 = Ok te
     /\ ~ refetch_is_candidates Example.table te "crash")
  /\ (exists te updated refetched,
        topic_edit Example.allow_all Example.table_saved Example.user Example.m1_saved
          (Example.request change_all false) Example.event 1700000000 = Ok te
        /\ propagate te Example.table_saved = Ok (updated, refetched)
        /\ map Message.id (qs_rows (messages te) Example.table_saved) = [2; 3]
        /\ map Message.id refetched = [1; 2; 3]
        /\ map Message.subject refetched = ["crash"; "crash"; "crash"]
        /\ ~ refetch_is_candidates Example.table_saved te "crash").
Proof.
  split.
  - eexists. split; [reflexivity|].
    intros H. edestruct H as [Hlen _]; [reflexivity|].
    vm_compute in Hlen. discriminate.
  - do 3 eexists. split; [reflexivity|]. split; [reflexivity|].
    repeat split; try reflexivity.
    intros H. edestruct H as [Hlen _]; [reflexivity|].
    vm_compute in Hlen. discriminate.
Qed.



Lemma empty_topic_renamings_round_trip_witness :
  maybe_rename_general_chat_to_empty_topic "general chat"
    (maybe_rename_empty_topic_to_general_chat "general chat" "" true false) = ""
  /\ maybe_rename_empty_topic_to_general_chat "general chat"
       (maybe_rename_general_chat_to_empty_topic "general chat" "general chat")
       true false = "general chat"
  /\ maybe_rename_empty_topic_to_general_chat "general chat" "" true true = "".
Proof.
  split; [|split].
  - refine (proj1 (empty_topic_renamings_round_trip "general chat" "" true false) _).
    intros H. discriminate H.
  - refine (proj1 (proj2 (proj2
             (empty_topic_renamings_round_trip "general chat" "general chat"
                true false))) _).
    intros H. discriminate H.
  - refine (proj2 (proj2 (proj2
             (empty_topic_renamings_round_trip "general chat" "" true true))) _).
    right. reflexivity.
Defined.

Lemma history_ignores_row_order_witness :
  generate_topic_history_from_db_rows PyStr.ascii_lower "general chat"
    [("Bug", 5); ("lunch", 8); ("BUG", 10)] false
  = generate_topic_history_from_db_rows PyStr.ascii_lower "general chat"
      [("BUG", 10); ("Bug", 5); ("lunch", 8)] false.
Proof.
  apply (history_ignores_row_order PyStr.ascii_lower "general chat").
  - symmetry. apply (Permutation_cons_append [("Bug", 5); ("lunch", 8)] ("BUG", 10)).
  - refine (bool_decide_unpack _ _). vm_compute. exact I.
Defined.

Lemma history_has_no_empty_name_witness :
  name {| name := "general chat"; max_id := 7 |} <> "".
Proof.
  apply (history_has_no_empty_name PyStr.ascii_lower "general chat"
           [("", 7); ("lunch", 3)]).
  - intros H. discriminate H.
  - vm_compute. apply list_elem_of_here.
Defined.

Lemma history_merges_only_case_variants_witness :
  generate_topic_history_from_db_rows PyStr.ascii_lower "general chat"
    [("Bug", 5); ("lunch", 8); ("", 2)] false
  ≡ₚ [{| name := "Bug"; max_id := 5 |}; {| name := "lunch"; max_id := 8 |};
      {| name := "general chat"; max_id := 2 |}].
Proof.
  refine (proj2 (history_merges_only_case_variants PyStr.ascii_lower "general chat"
                   [("Bug", 5); ("lunch", 8); ("", 2)] false) _).
  refine (bool_decide_unpack _ _). vm_compute. exact I.
Defined.

Lemma update_edit_history_failure_witness :
  update_edit_history JsonText.loads JsonText.dumps JsonText.encodes Example.m_broken 1700000000
    Example.event
  = (set_last_edit_time Example.m_broken 1700000000, Raise JSONDecodeError)
  /\ update_edit_history JsonText.loads JsonText.dumps JsonText.encodes Example.m_object 1700000000
       Example.event
     = (set_last_edit_time Example.m_object 1700000000, Raise AttributeError).
Proof.
  split.
  - refine (proj1 (update_edit_history_failure JsonText.loads JsonText.dumps
                     JsonText.encodes Example.m_broken 1700000000 Example.event
                     "[oops" eq_refl)
              JSONDecodeError _).
    vm_compute. reflexivity.
  - refine (proj1 (proj2 (update_edit_history_failure JsonText.loads JsonText.dumps
                            JsonText.encodes Example.m_object 1700000000
                            Example.event
                            (JsonText.dumps Example.earlier_event) eq_refl))
              Example.earlier_event _ _).
    + vm_compute. reflexivity.
    + intros items H. discriminate H.
Defined.

Lemma update_edit_history_twice_witness :
  Message.edit_history
    (fst (update_edit_history JsonText.loads JsonText.dumps JsonText.encodes
            (fst (update_edit_history JsonText.loads JsonText.dumps JsonText.encodes
                    Example.m2 1700000000 Example.event))
            1700000060 Example.earlier_event))
  = Some (JsonText.dumps
            (JArr [Example.earlier_event; Example.event; Example.earlier_event]))
  /\ Message.last_edit_time
       (fst (update_edit_history JsonText.loads JsonText.dumps JsonText.encodes
               (fst (update_edit_history JsonText.loads JsonText.dumps
                       JsonText.encodes Example.m2 1700000000 Example.event))
               1700000060 Example.earlier_event))
     = Some 1700000060.
Proof.
  destruct (update_edit_history_twice JsonText.loads JsonText.dumps JsonText.encodes
              Example.m2 1700000000 1700000060 Example.event Example.earlier_event
              [Example.earlier_event])
    as (_ & _ & Hstored & Htime & _).
  - vm_compute. reflexivity.
  - vm_compute. reflexivity.
  - vm_compute. reflexivity.
  - vm_compute. reflexivity.
  - split; [exact Hstored | exact Htime].
Defined.

Lemma update_edit_history_unencodable_witness :
  snd (update_edit_history JsonText.loads JsonText.dumps JsonText.encodes Example.m2
         1700000000 Example.event_too_big) = Raise TypeError
  /\ Message.edit_history
       (fst (update_edit_history JsonText.loads JsonText.dumps JsonText.encodes
               Example.m2 1700000000 Example.event_too_big))
     = Message.edit_history Example.m2.
Proof.
  destruct (update_edit_history_unencodable JsonText.loads JsonText.dumps
              JsonText.encodes Example.m2 1700000000 Example.event_too_big
              [Example.earlier_event]) as (Hraise & Hkept & _).
  - vm_compute. reflexivity.
  - vm_compute. reflexivity.
  - split; [exact Hraise | exact Hkept].
Defined.

Lemma bulk_update_wraps_non_array_witness :
  snd (update_edit_history JsonText.loads JsonText.dumps JsonText.encodes Example.m_object 1700000000
         Example.event) = Raise AttributeError
  /\ eval JsonText.jsonb_in JsonText.jsonb_out Example.m_object
       (edit_history_expr JsonText.dumps Example.event)
     = Ok (SqlText (JsonText.jsonb_out (JArr [Example.event; Example.earlier_event]))).
Proof.
  apply (bulk_update_wraps_non_array JsonText.loads JsonText.dumps JsonText.jsonb_in
           JsonText.jsonb_out JsonText.encodes Example.m_object 1700000000
           Example.event
           (JsonText.dumps Example.earlier_event) Example.earlier_event).
  - reflexivity.
  - vm_compute. reflexivity.
  - vm_compute. reflexivity.
  - intros items H. discriminate H.
  - vm_compute. reflexivity.
Defined.

Lemma example_access_restricts (n : Z) : access_check_restricts (Example.deny_message n).
Proof.
  intros user q stream m H. unfold Example.deny_message, qs_filter in H.
  apply andb_true_iff in H as [H _]. exact H.
Qed.


Lemma propagate_keeps_table_shape_witness :
  exists te updated refetched,
    topic_edit Example.allow_all Example.table Example.user Example.m1
      (Example.request change_all false) Example.event 1700000000 = Ok te
    /\ propagate te Example.table = Ok (updated, refetched)
    /\ map Message.id updated = [1; 2; 3; 4].
Proof.
  destruct (propagate_keeps_table_shape PyStr.ascii_upper JsonText.dumps
              JsonText.jsonb_in JsonText.jsonb_out Example.allow_all Example.table
              Example.table Example.user Example.m1
              (Example.request change_all false) Example.event 1700000000 10)
    as (te & updated & refetched & Hte & Hrun & Hids & _).
  - reflexivity.
  - exact example_reads_event.
  - intros H. discriminate H.
  - exact example_histories.
  - exists te, updated, refetched.
    split; [exact Hte|]. split; [exact Hrun | exact Hids].
Defined.

Lemma query_set_is_empty_after_move_witness :
  exists te updated refetched,
    topic_edit (Example.deny_message 3) Example.table Example.user Example.m1
      (Example.request change_all true) Example.event 1700000000 = Ok te
    /\ propagate te Example.table = Ok (updated, refetched)
    /\ qs_rows (messages te) updated = [].
Proof.
  apply (query_set_is_empty_after_move PyStr.ascii_upper JsonText.dumps
           JsonText.jsonb_in JsonText.jsonb_out (Example.deny_message 3)
           Example.table Example.table Example.user Example.m1
           (Example.request change_all true) Example.event 1700000000 10).
  - apply example_access_restricts.
  - reflexivity.
  - exact example_reads_event.
  - intros _. vm_compute. eauto.
  - exact example_histories.
  - left. split; [reflexivity|]. vm_compute. intros H. discriminate H.
Defined.

Lemma case_only_rename_still_matches_witness :
  exists te updated refetched,
    topic_edit Example.allow_all Example.table Example.user Example.m1
      Example.recase_request Example.event 1700000000 = Ok te
    /\ propagate te Example.table = Ok (updated, refetched)
    /\ map Message.id (qs_rows (messages te) updated) = [2; 3].
Proof.
  destruct (case_only_rename_still_matches PyStr.ascii_upper JsonText.dumps
              JsonText.jsonb_in JsonText.jsonb_out Example.allow_all Example.table
              Example.table Example.user Example.m1 Example.recase_request
              Example.event 1700000000 10)
    as (te & updated & refetched & Hte & Hrun & Hsame).
  - reflexivity.
  - exact example_reads_event.
  - exact example_histories.
  - reflexivity.
  - reflexivity.
  - exists te, updated, refetched.
    split; [exact Hte|]. split; [exact Hrun|]. rewrite Hsame.
    assert (E : topic_edit Example.allow_all Example.table Example.user Example.m1
                  Example.recase_request Example.event 1700000000 = Ok te)
      by exact Hte.
    injection E as <-. reflexivity.
Defined.



Lemma refetch_after_move_witness :
  exists te updated refetched,
    topic_edit (Example.deny_message 3) Example.table Example.user Example.m1
      (Example.request change_later true) Example.event 1700000000 = Ok te
    /\ propagate te Example.table = Ok (updated, refetched)
    /\ List.filter (fun r => Message.id r =? 1) refetched = [Example.m1].
Proof.
  destruct (refetch_after_move PyStr.ascii_upper JsonText.dumps JsonText.jsonb_in
              JsonText.jsonb_out (Example.deny_message 3) Example.table Example.table
              Example.user Example.m1 (Example.request change_later true)
              Example.event 1700000000 10)
    as (te & updated & refetched & Hte & Hrun & Hrefetch).
  - apply example_access_restricts.
  - reflexivity.
  - intros H. discriminate H.
  - exact example_reads_event.
  - intros _. vm_compute. eauto.
  - exact example_ids_NoDup.
  - exact example_histories.
  - exists te, updated, refetched.
    split; [exact Hte|]. split; [exact Hrun|].
    destruct (Hrefetch eq_refl) as [_ Hedited]. exact Hedited.
Defined.

Ltac in_list := repeat (first [apply list_elem_of_here | apply list_elem_of_further]).

Lemma latest_message_of_public_topic_witness :
  get_latest_message_for_user_in_topic PyStr.ascii_upper Example.database 1 None 10
    "BuG" true (Some true) = Ok (Some 3)
  /\ forall m, m ∈ zerver_message Example.database ->
               messages_for_topic PyStr.ascii_upper 1 10 "BuG" m = true ->
               Message.id m <= 3.
Proof.
  destruct (latest_message_of_public_topic PyStr.ascii_upper Example.database 1 None
              10 "BuG") as (res & Hres & Hspec).
  change (get_latest_message_for_user_in_topic PyStr.ascii_upper Example.database 1
            None 10 "BuG" true (Some true)) with (Ok (Some 3)) in Hres.
  injection Hres as <-. split; [reflexivity | exact (proj2 Hspec)].
Defined.

Lemma latest_message_of_user_in_topic_witness :
  get_latest_message_for_user_in_topic PyStr.ascii_upper Example.database 1
    (Some Example.user) 10 "bug" false (Some true) = Ok (Some 3)
  /\ forall um, um ∈ zerver_usermessage Example.database ->
                user_messages_for_topic PyStr.ascii_upper Example.database Example.user
                  10 "bug" um = true ->
                UserMessage.message_id um <= 3.
Proof.
  destruct (latest_message_of_user_in_topic PyStr.ascii_upper Example.database 1
              Example.user 10 "bug") as (res & Hres & Hspec).
  change (get_latest_message_for_user_in_topic PyStr.ascii_upper Example.database 1
            (Some Example.user) 10 "bug" false (Some true))
    with (Ok (Some 3)) in Hres.
  injection Hres as <-. split; [reflexivity|].
  destruct Hspec as (um & _ & _ & _ & _ & Hmono). apply Hmono.
  intros a b Ha Hb. simpl in Ha, Hb.
  each_row Ha; each_row Hb; simpl; lia.
Defined.

Lemma topic_lookups_ignore_case_witness :
  user_message_exists_for_topic PyStr.ascii_upper Example.database Example.user 10 "bug"
  = user_message_exists_for_topic PyStr.ascii_upper Example.database Example.user 10
      "BUG".
Proof.
  apply (topic_lookups_ignore_case PyStr.ascii_upper Example.database
           Example.reactions Example.userprofiles 1 None Example.user 10 "bug" "BUG"
           false None).
  reflexivity.
Defined.

Lemma public_history_shows_latest_message_witness :
  exists m,
    m ∈ zerver_message Example.database
    /\ Message.id m = 3
    /\ Message.subject m = "BUG".
Proof.
  destruct (public_history_shows_latest_message PyStr.ascii_lower "general chat"
              Example.database 1 10 false {| name := "BUG"; max_id := 3 |})
    as (m & Hm & _ & Hid & Hname & _).
  - vm_compute. in_list.
  - exists m. split; [exact Hm|]. split; [exact Hid|].
    simpl in Hid. each_row Hm; try discriminate Hid. reflexivity.
Defined.

Lemma public_history_lists_every_topic_witness :
  exists e tn,
    e ∈ get_topic_history_for_public_stream PyStr.ascii_lower "general chat"
          Example.database 1 10 false
    /\ 1 <= max_id e
    /\ PyStr.ascii_lower tn = "bug"
    /\ name e = history_name "general chat" false tn.
Proof.
  apply (public_history_lists_every_topic PyStr.ascii_lower "general chat"
           Example.database 1 10 false Example.m1).
  - simpl. in_list.
  - reflexivity.
Defined.

Lemma user_history_shows_delivered_messages_witness :
  exists m um,
    m ∈ zerver_message Example.database
    /\ um ∈ zerver_usermessage Example.database
    /\ UserMessage.message_id um = Message.id m
    /\ UserMessage.user_profile_id um = 7
    /\ Message.id m = 3.
Proof.
  destruct (user_history_shows_delivered_messages PyStr.ascii_lower "general chat"
              Example.database Example.user 10 false {| name := "BUG"; max_id := 3 |})
    as (m & um & Hm & Hum & Hjoin & Huser & _ & Hid & _).
  - vm_compute. in_list.
  - exists m, um. repeat split; assumption.
Defined.

Lemma participants_are_senders_and_reactors_witness :
  9 ∈ participants_for_topic PyStr.ascii_upper Example.table Example.reactions
        Example.userprofiles 1 10 "BUG"
  /\ ~ 8 ∈ participants_for_topic PyStr.ascii_upper Example.table Example.reactions
           Example.userprofiles 1 10 "BUG".
Proof.
  split.
  - apply (participants_are_senders_and_reactors PyStr.ascii_upper Example.table
             Example.reactions Example.userprofiles 1 10 "BUG" 9).
    split.
    + exists (UserProfile.mk 9 1). split; [unfold Example.userprofiles; in_list|].
      reflexivity.
    + right. exists (Reaction.mk 200 9 2), Example.m2.
      repeat split; [unfold Example.reactions; in_list
                    | unfold Example.table; in_list].
  - intros H.
    apply (participants_are_senders_and_reactors PyStr.ascii_upper Example.table
             Example.reactions Example.userprofiles 1 10 "BUG" 8) in H
      as [_ [(m & Hm & Hq & Hs) | (r & m & Hr & Hu & Hm & Hq & Hid)]].
    + unfold Example.table in Hm. each_row Hm; discriminate.
    + unfold Example.reactions in Hr. each_row Hr; try discriminate Hu.
      unfold Example.table in Hm. each_row Hm; discriminate.
Defined.

Lemma propagate_again_changes_nothing_witness :
  exists te updated refetched,
    topic_edit (Example.deny_message 3) Example.table Example.user Example.m1
      (Example.request change_all true) Example.event 1700000000 = Ok te
    /\ propagate te Example.table = Ok (updated, refetched)
    /\ propagate te updated = Ok (updated, refetched).
Proof.
  apply (propagate_again_changes_nothing PyStr.ascii_upper JsonText.dumps
           JsonText.jsonb_in JsonText.jsonb_out (Example.deny_message 3)
           Example.table Example.table Example.user Example.m1
           (Example.request change_all true) Example.event 1700000000 10).
  - apply example_access_restricts.
  - reflexivity.
  - exact example_reads_event.
  - intros _. vm_compute. eauto.
  - exact example_histories.
  - left. split; [reflexivity|]. vm_compute. intros H. discriminate H.
Defined.

Lemma message_info_reads_two_keys_witness :
  get_topic_from_message_info
    (<["content" := "hello"]> (<["subject" := "lunch"]> (∅ : gmap string string)))
  = get_topic_from_message_info (<["subject" := "lunch"]> (∅ : gmap string string)).
Proof.
  refine (proj1 (proj2 (proj2
            (message_info_reads_two_keys
               (<["subject" := "lunch"]> (∅ : gmap string string)) "content" "hello"))
            _ _)).
  - intros H. discriminate H.
  - intros H. discriminate H.
Defined.

Lemma history_starts_with_latest_witness :
  exists e rest,
    generate_topic_history_from_db_rows PyStr.ascii_lower "general chat"
      [("Bug", 5); ("lunch", 8); ("BUG", 10)] false = e :: rest
    /\ forall r, r ∈ [("Bug", 5); ("lunch", 8); ("BUG", 10)] -> snd r <= max_id e.
Proof.
  apply (history_starts_with_latest PyStr.ascii_lower "general chat"
           [("Bug", 5); ("lunch", 8); ("BUG", 10)] false).
  intros H. discriminate H.
Defined.

Lemma topic_exists_iff_latest_message_witness :
  user_message_exists_for_topic PyStr.ascii_upper Example.database Example.user 10 "bug"
  = true.
Proof.
  apply (topic_exists_iff_latest_message PyStr.ascii_upper Example.database 1
           Example.user 10 "bug").
  exists 3. reflexivity.
Defined.
